(** * YouTube new-channel survey: a model of [main.py] and its properties

    The program is a linear pipeline: build an API client, page through a
    video search collecting owning-channel ids, fetch channel details in
    batches, keep the recently created channels, sort them by subscriber
    count and render a table.

    The remote service is modelled by the sequence of outcomes its calls
    produce (a script), the user interface by the list of messages the run
    emits, and Python exceptions by explicit result types. *)

From Stdlib Require Import ZArith String Ascii List Lia Bool.
From Stdlib Require Import DecimalString DecimalZ DecimalN DecimalPos Permutation Sorted.
From stdpp Require Import base option list sorting sets gmap strings.

Local Open Scope Z_scope.

#[local] Set Warnings "-clear-no-such-hyp".

(** ** Constants of the module *)

Definition MAX_VIDEO_RESULTS_PER_PAGE : Z := 50.
Definition MAX_TOTAL_VIDEO_RESULTS : Z := 100.
Definition MAX_CHANNELS_TO_FETCH_PER_CALL : nat := 50.
Definition NEW_CHANNEL_DAYS_THRESHOLD : Z := 30.

(** ** Python values *)

(** Truthiness of an optional string: [None] and the empty string are
    false, as in [if s:]. *)
Definition truthy (s : option string) : bool :=
  match s with
  | Some (String _ _) => true
  | _ => false
  end.

(** [str(x)] inside an f-string for a value that may be [None]. *)
Definition py_str (s : option string) : string :=
  match s with
  | Some v => v
  | None => "None"%string
  end.

(** Exceptions the program distinguishes: the API client's [HttpError]
    and everything else caught by [except Exception]. *)
Inductive exn : Type :=
  | HttpError (msg : string)
  | ValueError (msg : string)
  | KeyError (key : string)
  | OtherError (msg : string).

Definition is_http_error (e : exn) : bool :=
  match e with
  | HttpError _ => true
  | _ => false
  end.

(** Outcome of a computation that may raise; in particular of
    [request.execute()]. *)
Inductive result (A : Type) : Type :=
  | Returned (a : A)
  | Raised (e : exn).
Arguments Returned {A} a.
Arguments Raised {A} e.

(** A timezone-aware [datetime]: an instant on the UTC time line, counted
    in microseconds (the platform sends timestamps with a zone designator,
    and [today] is taken in UTC). Comparison of two aware datetimes compares
    instants. *)
Definition datetime : Type := Z.

(** ** User-interface messages ([st.write], [st.warning], ...) *)

Inductive level : Type := LWrite | LInfo | LWarning | LError | LSuccess.

Inductive msg : Type :=
  | AskApiKey                                   (* warning, get_youtube_service *)
  | KeyCheckFailed (e : exn)                    (* error *)
  | KeyCheckHint                                (* error *)
  | BuildUnexpected (e : exn)                   (* error *)
  | Searching (days : Z)                        (* write *)
  | FoundChannels (n : nat)                     (* write *)
  | SearchApiError (e : exn)                    (* error *)
  | SearchQuotaHint                             (* error *)
  | SearchUnexpected (e : exn)                  (* error *)
  | FetchingBatch (lo hi total : nat)           (* write *)
  | DateParseWarning (raw : string) (id : option string)   (* warning *)
  | ChannelsApiError (lo hi : nat) (e : exn)    (* error *)
  | ChannelsQuotaHint                           (* error *)
  | ChannelsUnexpected (e : exn)                (* error *)
  | NoChannelsToCheck                           (* warning, main *)
  | DetailsFailed                               (* warning, main *)
  | SurveyDone (n : nat)                        (* success, main *)
  | NoNewChannels (days total : Z)              (* info, main *)
  | PressStart                                  (* info, main *)
  | EnterKeyInSidebar.                          (* info, main *)

Definition msg_level (m : msg) : level :=
  match m with
  | AskApiKey | DateParseWarning _ _ | NoChannelsToCheck | DetailsFailed => LWarning
  | KeyCheckFailed _ | KeyCheckHint | BuildUnexpected _
  | SearchApiError _ | SearchQuotaHint | SearchUnexpected _
  | ChannelsApiError _ _ _ | ChannelsQuotaHint | ChannelsUnexpected _ => LError
  | Searching _ | FoundChannels _ | FetchingBatch _ _ _ => LWrite
  | SurveyDone _ => LSuccess
  | NoNewChannels _ _ | PressStart | EnterKeyInSidebar => LInfo
  end.

Definition is_warning (m : msg) : bool :=
  match msg_level m with LWarning => true | _ => false end.

Definition is_error (m : msg) : bool :=
  match msg_level m with LError => true | _ => false end.

(** ** Network calls, recorded in the order they are made *)

Record search_request : Type := {
  sr_publishedAfter : string;
  sr_maxResults : Z;
  sr_pageToken : option string
}.

Inductive io_event : Type :=
  | IoBuild (developerKey : string)
  | IoSearch (req : search_request)
  | IoChannels (ids : list string).

(** ** API client wrapper *)

(** [build(...)] is a call into the client library; its outcome is an
    input of the model. The handle itself carries no data here. *)
Inductive handle : Type := Youtube.

Definition get_youtube_service (api_key_input : string)
    (build : result handle) : option handle * list msg * list io_event :=
  if negb (truthy (Some api_key_input)) then
    (None, [AskApiKey], [])
  else
    match build with
    | Returned youtube => (Some youtube, [], [IoBuild api_key_input])
    | Raised e =>
        if is_http_error e
        then (None, [KeyCheckFailed e; KeyCheckHint], [IoBuild api_key_input])
        else (None, [BuildUnexpected e], [IoBuild api_key_input])
    end.

(** ** Popular-video finder *)

(** A search result item: [item['id']['videoId']] and
    [item['snippet']['channelId']]; a missing key raises [KeyError]. *)
Record search_item : Type := {
  si_videoId : option string;
  si_channelId : option string
}.

(** A search page: [get('items', [])] and [get('nextPageToken')]. *)
Record search_response : Type := {
  resp_items : list search_item;
  resp_nextPageToken : option string
}.

(** Local variables of [search_popular_videos]. *)
Record finder_state : Type := {
  video_ids : list string;
  channel_ids : gset string;
  next_page_token : option string;
  results_fetched : Z
}.

Definition finder_init : finder_state :=
  {| video_ids := []; channel_ids := ∅; next_page_token := None;
     results_fetched := 0 |}.

(** Body of the [for item in ...] loop, with its [break]. The result is
    the state the loop leaves and, when an item raised, the exception (the
    state is then the one at the time of the raise). *)
Fixpoint scan_items (max_results : Z) (items : list search_item)
    (st : finder_state) : finder_state * option exn :=
  match items with
  | [] => (st, None)
  | item :: rest =>
      match si_videoId item with
      | None => (st, Some (KeyError "videoId"))
      | Some v =>
          let st_v :=
            {| video_ids := video_ids st ++ [v];
               channel_ids := channel_ids st;
               next_page_token := next_page_token st;
               results_fetched := results_fetched st |} in
          match si_channelId item with
          | None => (st_v, Some (KeyError "channelId"))
          | Some c =>
              let st' :=
                {| video_ids := video_ids st_v;
                   channel_ids := {[c]} ∪ channel_ids st_v;
                   next_page_token := next_page_token st_v;
                   results_fetched := results_fetched st_v + 1 |} in
              if max_results <=? results_fetched st'
              then (st', None)
              else scan_items max_results rest st'
          end
      end
  end.

Definition set_token (tok : option string) (st : finder_state) : finder_state :=
  {| video_ids := video_ids st; channel_ids := channel_ids st;
     next_page_token := tok; results_fetched := results_fetched st |}.

(** The [while results_fetched < max_results] loop. The script lists the
    outcomes of the successive [execute()] calls; [None] means the loop asks
    for more pages than the script holds. Otherwise the result is the state
    when the loop is left, the exception that left it (if any), and the
    requests issued, oldest first. *)
Fixpoint search_loop (published_after_iso : string) (max_results : Z)
    (script : list (result search_response)) (st : finder_state)
    : option (finder_state * option exn * list search_request) :=
  if results_fetched st <? max_results then
    match script with
    | [] => None
    | r :: script' =>
        let num_to_fetch :=
          Z.min MAX_VIDEO_RESULTS_PER_PAGE (max_results - results_fetched st) in
        let req := {| sr_publishedAfter := published_after_iso;
                      sr_maxResults := num_to_fetch;
                      sr_pageToken := next_page_token st |} in
        match r with
        | Raised e => Some (st, Some e, [req])
        | Returned search_response =>
            match scan_items max_results (resp_items search_response) st with
            | (st1, Some e) => Some (st1, Some e, [req])
            | (st1, None) =>
                let st2 := set_token (resp_nextPageToken search_response) st1 in
                if negb (truthy (next_page_token st2))
                   || (max_results <=? results_fetched st2)
                then Some (st2, None, [req])
                else
                  match search_loop published_after_iso max_results script' st2 with
                  | Some (st3, e, reqs) => Some (st3, e, req :: reqs)
                  | None => None
                  end
            end
        end
    end
  else Some (st, None, []).

(** The two [except] clauses of the search. *)
Definition search_handler (e : exn) : list msg :=
  if is_http_error e
  then [SearchApiError e; SearchQuotaHint]
  else [SearchUnexpected e].

(** [search_popular_videos]: the channel ids (in the set's iteration
    order), the messages, and the calls made. *)
Definition search_popular_videos (published_after_iso : string) (max_results : Z)
    (script : list (result search_response))
    : option (list string * list msg * list io_event) :=
  match search_loop published_after_iso max_results script finder_init with
  | None => None
  | Some (st, None, reqs) =>
      Some (elements (channel_ids st),
            [Searching NEW_CHANNEL_DAYS_THRESHOLD; FoundChannels (size (channel_ids st))],
            IoSearch <$> reqs)
  | Some (st, Some e, reqs) =>
      Some ([], Searching NEW_CHANNEL_DAYS_THRESHOLD :: search_handler e,
            IoSearch <$> reqs)
  end.

(** *** Vocabulary for the finder's properties *)

(** The items a call hands to the loop. *)
Definition page_items (r : result search_response) : list search_item :=
  match r with
  | Returned p => resp_items p
  | Raised _ => []
  end.

Definition item_videos (items : list search_item) : list string :=
  omap si_videoId items.
Definition item_channels (items : list search_item) : list string :=
  omap si_channelId items.

Definition well_formed_item (item : search_item) : Prop :=
  is_Some (si_videoId item) ∧ is_Some (si_channelId item).

(** The video items gone through once the first [calls] pages of the
    script are handled: the pages' items in order, cut at the quota. *)
Definition scanned_items (max_results : Z)
    (script : list (result search_response)) (calls : nat) : list search_item :=
  take (Z.to_nat max_results) (concat (page_items <$> take calls script)).

(** The local variables after going through the items [seen]. *)
Definition state_after (seen : list search_item) (st : finder_state) : Prop :=
  Forall well_formed_item seen
  ∧ video_ids st = item_videos seen
  ∧ channel_ids st = list_to_set (item_channels seen)
  ∧ results_fetched st = Z.of_nat (length seen).

(** The counters agree with the containers. *)
Definition counts_inv (st : finder_state) : Prop :=
  results_fetched st = Z.of_nat (length (video_ids st))
  ∧ Z.of_nat (size (channel_ids st)) ≤ results_fetched st.

(** A call outcome after which the loop cannot go on: an exception, or a
    page without continuation token. *)
Definition ends_search (r : result search_response) : bool :=
  match r with
  | Raised _ => true
  | Returned p => negb (truthy (resp_nextPageToken p))
  end.

(** ** Channel detail fetcher *)

Record snippet : Type := {
  sn_title : option string;
  sn_description : option string;
  sn_publishedAt : option string
}.

(** The statistics part; the platform sends the counts as decimal strings. *)
Record statistics : Type := {
  st_subscriberCount : option string;
  st_viewCount : option string;
  st_videoCount : option string;
  st_hiddenSubscriberCount : option bool
}.

Record channel_item : Type := {
  ci_id : option string;
  ci_snippet : option snippet;
  ci_statistics : option statistics
}.

Record channels_response : Type := {
  cr_items : list channel_item
}.

(** [item.get('snippet', {})] and [item.get('statistics', {})]. *)
Definition empty_snippet : snippet :=
  {| sn_title := None; sn_description := None; sn_publishedAt := None |}.
Definition empty_statistics : statistics :=
  {| st_subscriberCount := None; st_viewCount := None; st_videoCount := None;
     st_hiddenSubscriberCount := None |}.

(** The dictionary appended to [channel_data]. *)
Record ChannelRecord : Type := {
  channel_id : option string;
  channel_name : option string;
  description : option string;
  published_at_str : option string;
  published_at : option datetime;
  subscriber_count : Z;
  view_count : Z;
  video_count : Z;
  hidden_subscriber_count : bool
}.

(** What the loop body does with one item: append a record, [continue]
    after a date warning, or let an exception escape to the batch handler. *)
Inductive item_outcome : Type :=
  | Appended (r : ChannelRecord)
  | Skipped (w : msg)
  | ItemRaised (e : exn).

(** The two [except] clauses of a batch. *)
Definition batch_handler (lo hi : nat) (e : exn) : list msg :=
  if is_http_error e
  then [ChannelsApiError lo hi e; ChannelsQuotaHint]
  else [ChannelsUnexpected e].

(** [range(0, stop, step)] for a positive step: the multiples of [step]
    below [stop]. *)
Definition range0 (stop step : nat) : list nat :=
  (λ k, k * step)%nat <$> seq 0 ((stop + (step - 1)) / step)%nat.

(** [range(0, len(channel_ids), MAX_CHANNELS_TO_FETCH_PER_CALL)]. *)
Definition batch_starts (n : nat) : list nat :=
  range0 n MAX_CHANNELS_TO_FETCH_PER_CALL.

(** [channel_ids[i:i + MAX_CHANNELS_TO_FETCH_PER_CALL]]. *)
Definition batch_at (channel_ids : list string) (i : nat) : list string :=
  take MAX_CHANNELS_TO_FETCH_PER_CALL (drop i channel_ids).

Section Fetcher.

(** Library functions: the builtin [int] on a string and dateutil's
    [isoparse]; [None] stands for their [ValueError]. *)
Variable py_int : string → option Z.
Variable isoparse : string → option datetime.

Definition int_of (s : string) : result Z :=
  match py_int s with
  | Some z => Returned z
  | None => Raised (ValueError s)
  end.

(** [int(statistics.get(key, 0))]. *)
Definition int_default0 (v : option string) : result Z :=
  match v with
  | Some s => int_of s
  | None => Returned 0
  end.

(** The counts of an item decode: every count that is present parses. *)
Definition counts_decode (stats : statistics) : Prop :=
  (truthy (st_subscriberCount stats) = true →
     is_Some (py_int (py_str (st_subscriberCount stats))))
  ∧ (∀ v, st_viewCount stats = Some v → is_Some (py_int v))
  ∧ (∀ v, st_videoCount stats = Some v → is_Some (py_int v)).

(** Lines 155-168: the counts and the record. *)
Definition build_record (item : channel_item) (snippet : snippet)
    (statistics : statistics) (published_at_str : option string)
    (published_at_dt : option datetime) : item_outcome :=
  let subscriber_count := st_subscriberCount statistics in
  match (if truthy subscriber_count
         then int_of (py_str subscriber_count) else Returned 0) with
  | Raised e => ItemRaised e
  | Returned subscriber_count_int =>
      match int_default0 (st_viewCount statistics) with
      | Raised e => ItemRaised e
      | Returned views =>
          match int_default0 (st_videoCount statistics) with
          | Raised e => ItemRaised e
          | Returned videos =>
              Appended
                {| channel_id := ci_id item;
                   channel_name := sn_title snippet;
                   description := sn_description snippet;
                   published_at_str := published_at_str;
                   published_at := published_at_dt;
                   subscriber_count := subscriber_count_int;
                   view_count := views;
                   video_count := videos;
                   hidden_subscriber_count :=
                     default false (st_hiddenSubscriberCount statistics) |}
          end
      end
  end.

(** Body of [for item in channel_response.get('items', [])]. *)
Definition decode_item (item : channel_item) : item_outcome :=
  let snippet := default empty_snippet (ci_snippet item) in
  let statistics := default empty_statistics (ci_statistics item) in
  let published_at_str := sn_publishedAt snippet in
  if truthy published_at_str then
    match isoparse (py_str published_at_str) with
    | Some dt => build_record item snippet statistics published_at_str (Some dt)
    | None => Skipped (DateParseWarning (py_str published_at_str) (ci_id item))
    end
  else build_record item snippet statistics published_at_str None.

(** The item loop of one batch: the records appended, the warnings, and
    the exception that ended the loop early, if any. Records appended
    before an exception stay in [channel_data]. *)
Fixpoint decode_items (items : list channel_item)
    : list ChannelRecord * list msg * option exn :=
  match items with
  | [] => ([], [], None)
  | item :: rest =>
      match decode_item item with
      | Appended r =>
          let '(rs, ws, e) := decode_items rest in (r :: rs, ws, e)
      | Skipped w =>
          let '(rs, ws, e) := decode_items rest in (rs, w :: ws, e)
      | ItemRaised e => ([], [], Some e)
      end
  end.

(** One iteration of the batch loop, given the outcome of its request. *)
Definition fetch_batch (channel_ids : list string) (i : nat)
    (r : result channels_response) : list ChannelRecord * list msg :=
  let batch_ids := batch_at channel_ids i in
  let lo := (i + 1)%nat in
  let hi := (i + length batch_ids)%nat in
  let progress := FetchingBatch lo (hi `min` length channel_ids) (length channel_ids) in
  match r with
  | Raised e => ([], progress :: batch_handler lo hi e)
  | Returned channel_response =>
      let '(rs, ws, e) := decode_items (cr_items channel_response) in
      (rs, progress :: ws ++ from_option (batch_handler lo hi) [] e)
  end.

Fixpoint fetch_batches (channel_ids : list string) (starts : list nat)
    (script : list (result channels_response))
    : option (list ChannelRecord * list msg * list io_event) :=
  match starts with
  | [] => Some ([], [], [])
  | i :: starts' =>
      match script with
      | [] => None
      | r :: script' =>
          let '(rs, ms) := fetch_batch channel_ids i r in
          match fetch_batches channel_ids starts' script' with
          | Some (rs', ms', evs) =>
              Some (rs ++ rs', ms ++ ms', IoChannels (batch_at channel_ids i) :: evs)
          | None => None
          end
      end
  end.

(** [get_channel_details]; [None] when the script has fewer outcomes than
    there are batches. *)
Definition get_channel_details (channel_ids : list string)
    (script : list (result channels_response))
    : option (list ChannelRecord * list msg * list io_event) :=
  fetch_batches channel_ids (batch_starts (length channel_ids)) script.

(** The records a batch adds to [channel_data], given the outcome of its
    request: none when the request raised. *)
Definition batch_records (r : result channels_response) : list ChannelRecord :=
  match r with
  | Raised _ => []
  | Returned channel_response => (decode_items (cr_items channel_response)).1.1
  end.

End Fetcher.

(** A batch whose request raised. *)
Definition batch_failed (r : result channels_response) : bool :=
  match r with
  | Raised _ => true
  | Returned _ => false
  end.

(** ** Filter and rank *)

(** [df.dropna(subset=['published_at'])]. *)
Definition dropna (df : list ChannelRecord) : list ChannelRecord :=
  List.filter (λ r, bool_decide (is_Some (published_at r))) df.

(** One cell of [df_filtered['published_at'] >= one_month_ago]; a missing
    time compares false. *)
Definition is_new (one_month_ago : datetime) (r : ChannelRecord) : bool :=
  match published_at r with
  | Some t => one_month_ago <=? t
  | None => false
  end.

(** [new_channels_df]: lines 203-207. *)
Definition new_channels (one_month_ago : datetime) (df : list ChannelRecord)
    : list ChannelRecord :=
  List.filter (is_new one_month_ago) (dropna df).

(** ** Presentation *)

(** The marker shown for a hidden subscriber count. *)
Definition hidden_marker : string := "非公開".

Definition comma : ascii := ","%char.

(** Separators after every third digit; the digits come least significant
    first. *)
Fixpoint commas_rev (l : list ascii) : list ascii :=
  match l with
  | a :: b :: c :: ((_ :: _) as rest) => a :: b :: c :: comma :: commas_rev rest
  | _ => l
  end.

(** Decimal digits of the absolute value. *)
Definition decimal_digits (n : Z) : string :=
  NilZero.string_of_uint (N.to_uint (Z.abs_N n)).

(** [f"{n:,}"] for an integer. *)
Definition format_thousands (n : Z) : string :=
  let body :=
    string_of_list_ascii
      (rev (commas_rev (rev (list_ascii_of_string (decimal_digits n))))) in
  if n <? 0 then String "-" body else body.

(** Reading a formatted count back: drop the separators. *)
Definition not_comma (c : ascii) : bool := negb (Ascii.eqb c comma).

Definition strip_commas (s : string) : string :=
  string_of_list_ascii (List.filter not_comma (list_ascii_of_string s)).

Definition parse_decimal (s : string) : option Z :=
  Z.of_int <$> NilZero.int_of_string s.

(** *** Thousands separators, as the specification words them

    Written without reference to [format_thousands], to compare it with. *)

Definition is_digit (c : ascii) : bool :=
  (48 <=? nat_of_ascii c)%nat && (nat_of_ascii c <=? 57)%nat.

(** Digits in groups of three counted from the right, one comma between
    two groups, the leftmost group of one to three digits. The characters
    come right to left. *)
Fixpoint grouped_in_threes_rev (l : list ascii) : bool :=
  match l with
  | [] => false
  | [a] => is_digit a
  | [a; b] => is_digit a && is_digit b
  | [a; b; c] => is_digit a && is_digit b && is_digit c
  | a :: b :: c :: d :: rest =>
      is_digit a && is_digit b && is_digit c && Ascii.eqb d comma
      && grouped_in_threes_rev rest
  end.

(** [s] writes the integer [n] with thousands separators: without its
    commas it is the decimal numeral of [n], and after the sign its digits
    are grouped in threes. *)
Definition with_thousands_separators (n : Z) (s : string) : Prop :=
  strip_commas s = NilZero.string_of_int (Z.to_int n)
  ∧ ∃ body, s = (if n <? 0 then String "-" body else body)
            ∧ grouped_in_threes_rev (rev (list_ascii_of_string body)) = true.

(** A row of [new_channels_df] once the display columns are added. *)
Record ResultRow : Type := {
  rr_record : ChannelRecord;
  channel_link : string;
  col_opened : option string;      (* 開設日 *)
  col_subscribers : string;        (* 登録者数 *)
  col_total_views : string;        (* 総再生回数 *)
  col_videos : string              (* 動画数 *)
}.

(** The six columns selected by [display_columns]. *)
Record DisplayRow : Type := {
  d_channel_name : option string;
  d_opened : option string;
  d_subscribers : string;
  d_total_views : string;
  d_videos : string;
  d_channel_link : string
}.

(** The lambda of line 217. *)
Definition subscribers_cell (r : ChannelRecord) : string :=
  if negb (hidden_subscriber_count r)
  then format_thousands (subscriber_count r)
  else hidden_marker.

Definition select_columns (row : ResultRow) : DisplayRow :=
  {| d_channel_name := channel_name (rr_record row);
     d_opened := col_opened row;
     d_subscribers := col_subscribers row;
     d_total_views := col_total_views row;
     d_videos := col_videos row;
     d_channel_link := channel_link row |}.

(** What the specification asks of the table row of a record [r]: it is
    the row of that channel (name and link), and its subscriber cell is the
    literal marker when the record is flagged hidden, and otherwise the
    record's count written with thousands separators. *)
Definition shows_subscribers_of (r : ChannelRecord) (row : DisplayRow) : Prop :=
  d_channel_name row = channel_name r
  ∧ d_channel_link row
    = ("https://www.youtube.com/channel/" +:+ py_str (channel_id r))%string
  ∧ (if hidden_subscriber_count r
     then d_subscribers row = "非公開"%string
     else with_thousands_separators (subscriber_count r) (d_subscribers row)).

(** [numpy] fancy indexing [a[indexer]]; an index out of range raises
    there and is dropped here (it does not occur for an indexer that
    permutes the positions). *)
Definition take_rows {A : Type} (a : list A) (indexer : list nat) : list A :=
  omap (λ i, a !! i) indexer.

(** The column the table is sorted by. *)
Definition sort_key (row : ResultRow) : Z := subscriber_count (rr_record row).

(** What an index sort provides whatever its algorithm: the positions,
    permuted so that the keys do not decrease. *)
Definition argsort_contract (argsort : list Z → list nat) : Prop :=
  ∀ keys, argsort keys ≡ₚ seq 0 (length keys)
          ∧ Sorted Z.le (take_rows keys (argsort keys)).

(** An indexer keeps ties in input order: of two positions with equal
    keys, the one that comes first in the indexer is the smaller. *)
Definition keeps_ties (keys : list Z) (indexer : list nat) : Prop :=
  ∀ a b i j, (a < b)%nat →
    indexer !! a = Some i → indexer !! b = Some j →
    keys !! i = keys !! j → (i < j)%nat.

(** A stable index sort. *)
Definition stable_argsort (argsort : list Z → list nat) : Prop :=
  ∀ keys, keeps_ties keys (argsort keys).

Section Presentation.

(** [strftime('%Y-%m-%d %H:%M')] of the time without its zone. *)
Variable strftime : datetime → string.

(** The index sort that [sort_values] delegates to. The call passes no
    [kind], so the sort is the library's default one; it returns the
    positions of the keys in non-decreasing key order. *)
Variable argsort : list Z → list nat.

Definition add_display_columns (r : ChannelRecord) : ResultRow :=
  {| rr_record := r;
     channel_link := "https://www.youtube.com/channel/" +:+ py_str (channel_id r);
     col_opened := strftime <$> published_at r;
     col_subscribers := subscribers_cell r;
     col_total_views := format_thousands (view_count r);
     col_videos := format_thousands (video_count r) |}.

(** The indexer [sort_values] computes for [ascending=False] on a column
    without missing values: sort the reversed column, map the positions
    back, reverse. *)
Definition nargsort_desc (items : list Z) : list nat :=
  let idx := seq 0 (length items) in
  let non_nans := reverse items in
  let non_nan_idx := reverse idx in
  let indexer := take_rows non_nan_idx (argsort non_nans) in
  reverse indexer.

(** [df.sort_values(by='subscriber_count', ascending=False)]. *)
Definition sort_values_desc (df : list ResultRow) : list ResultRow :=
  take_rows df (nargsort_desc (sort_key <$> df)).

(** Lines 213-236: the table that is displayed. *)
Definition display_df (new_channels_df : list ChannelRecord) : list ResultRow :=
  sort_values_desc (add_display_columns <$> new_channels_df).

Definition display_table (new_channels_df : list ChannelRecord) : list DisplayRow :=
  select_columns <$> display_df new_channels_df.

End Presentation.

(** ** The run *)

(** What the outside world contributes to one run: the outcome of building
    the client, whether the start button is pressed, and the outcomes of the
    search and channel calls in the order they are made. *)
Record environment : Type := {
  env_build : result handle;
  env_button : bool;
  env_search : list (result search_response);
  env_channels : list (result channels_response)
}.

(** What one run produces: messages, network calls, the table shown and the
    table handed to the CSV download (its byte encoding is not modelled). *)
Record run_output : Type := {
  out_msgs : list msg;
  out_io : list io_event;
  out_table : option (list DisplayRow);
  out_download : option (list DisplayRow)
}.

Definition say (ms : list msg) (io : list io_event) : run_output :=
  {| out_msgs := ms; out_io := io; out_table := None; out_download := None |}.

(** [timedelta(days=d)] in microseconds. *)
Definition timedelta_days (d : Z) : Z := d * 86400000000.

Section Program.

Variable py_int : string → option Z.
Variable isoparse : string → option datetime.
Variable isoformat : datetime → string.
Variable strftime : datetime → string.
Variable argsort : list Z → list nat.

(** Lines 188-256, the body under the spinner. *)
Definition survey (max_videos : Z) (one_month_ago : datetime)
    (env : environment) : option run_output :=
  match search_popular_videos (isoformat one_month_ago) max_videos (env_search env) with
  | None => None
  | Some (channel_ids_to_check, m1, io1) =>
      match channel_ids_to_check with
      | [] => Some (say (m1 ++ [NoChannelsToCheck]) io1)
      | _ :: _ =>
          match get_channel_details py_int isoparse channel_ids_to_check
                  (env_channels env) with
          | None => None
          | Some (all_channel_details, m2, io2) =>
              match all_channel_details with
              | [] => Some (say (m1 ++ m2 ++ [DetailsFailed]) (io1 ++ io2))
              | _ :: _ =>
                  let new_channels_df := new_channels one_month_ago all_channel_details in
                  let ms := m1 ++ m2 ++ [SurveyDone (length new_channels_df)] in
                  match new_channels_df with
                  | [] =>
                      Some (say (ms ++ [NoNewChannels NEW_CHANNEL_DAYS_THRESHOLD
                                          MAX_TOTAL_VIDEO_RESULTS])
                                (io1 ++ io2))
                  | _ :: _ =>
                      let shown := display_table strftime argsort new_channels_df in
                      Some {| out_msgs := ms; out_io := io1 ++ io2;
                              out_table := Some shown;
                              out_download := Some shown |}
                  end
              end
          end
      end
  end.

(** The main block, lines 181-261. *)
Definition main (api_key : string) (max_videos new_channel_days : Z)
    (today : datetime) (env : environment) : option run_output :=
  let one_month_ago := today - timedelta_days new_channel_days in
  if truthy (Some api_key) then
    let '(youtube_service, m0, io0) := get_youtube_service api_key (env_build env) in
    match youtube_service with
    | Some _ =>
        if env_button env then
          match survey max_videos one_month_ago env with
          | Some out =>
              Some {| out_msgs := m0 ++ out_msgs out; out_io := io0 ++ out_io out;
                      out_table := out_table out; out_download := out_download out |}
          | None => None
          end
        else Some (say (m0 ++ [PressStart]) io0)
    | None => Some (say m0 io0)
    end
  else Some (say [EnterKeyInSidebar] []).

End Program.

(** ** The library's default index sort

    Line 225 passes no [kind], so [sort_values] sorts with [numpy]'s
    [argsort] of kind quicksort. That is the introsort [aquicksort_] of
    [npysort/quicksort.cpp], given here in its scalar form: ranges of more
    than [SMALL_QUICKSORT] + 1 positions are partitioned around the median
    of three, shorter ones are sorted by insertion, and the larger part of
    a partition waits on a stack. [tosort] is the array of positions being
    sorted, [v] the keys; [pl], [pr], [pi], [pj], [pm], [pk] point into
    [tosort]. The heapsort taken when the depth limit [cdepth] is used up
    is not modelled: the result is [None] there. *)

Definition SMALL_QUICKSORT : Z := 16.

Section Aquicksort.

Variable v : list Z.

(** [*p] and [v[*p]]. *)
Definition deref (tosort : list nat) (p : Z) : nat := tosort !!! Z.to_nat p.
Definition key_at (tosort : list nat) (p : Z) : Z := v !!! deref tosort p.

Definition INTP_SWAP (tosort : list nat) (a b : Z) : list nat :=
  <[Z.to_nat a := deref tosort b]> (<[Z.to_nat b := deref tosort a]> tosort).

(** [do { ++pi; } while (v[*pi] < vp);] *)
Fixpoint scan_up (fuel : nat) (tosort : list nat) (vp pi : Z) : Z :=
  match fuel with
  | O => pi
  | S fuel' =>
      let pi := pi + 1 in
      if key_at tosort pi <? vp then scan_up fuel' tosort vp pi else pi
  end.

(** [do { --pj; } while (vp < v[*pj]);] *)
Fixpoint scan_down (fuel : nat) (tosort : list nat) (vp pj : Z) : Z :=
  match fuel with
  | O => pj
  | S fuel' =>
      let pj := pj - 1 in
      if vp <? key_at tosort pj then scan_down fuel' tosort vp pj else pj
  end.

(** The [for (;;)] loop of the partition: scan from both ends, stop when
    the pointers meet, swap otherwise. *)
Fixpoint partition_loop (fuel : nat) (tosort : list nat) (vp pi pj : Z)
    : list nat * Z :=
  match fuel with
  | O => (tosort, pi)
  | S fuel' =>
      let pi := scan_up (length tosort) tosort vp pi in
      let pj := scan_down (length tosort) tosort vp pj in
      if pj <=? pi then (tosort, pi)
      else partition_loop fuel' (INTP_SWAP tosort pi pj) vp pi pj
  end.

(** One partition of [pl..pr]: median of three into [pm], the pivot parked
    at [pr - 1], the scan, the pivot put in place at [pi]. *)
Definition partition (tosort : list nat) (pl pr : Z) : list nat * Z :=
  let pm := pl + Z.shiftr (pr - pl) 1 in
  let tosort :=
    if key_at tosort pm <? key_at tosort pl then INTP_SWAP tosort pm pl else tosort in
  let tosort :=
    if key_at tosort pr <? key_at tosort pm then INTP_SWAP tosort pr pm else tosort in
  let tosort :=
    if key_at tosort pm <? key_at tosort pl then INTP_SWAP tosort pm pl else tosort in
  let vp := key_at tosort pm in
  let pi := pl in
  let pj := pr - 1 in
  let tosort := INTP_SWAP tosort pm pj in
  let '(tosort, pi) := partition_loop (length tosort) tosort vp pi pj in
  let pk := pr - 1 in
  (INTP_SWAP tosort pi pk, pi).

(** [while (pj > pl && vp < v[*pk]) { *pj-- = *pk--; }] with [pk = pj - 1]. *)
Fixpoint shift_right (fuel : nat) (tosort : list nat) (vp pl pj : Z)
    : list nat * Z :=
  match fuel with
  | O => (tosort, pj)
  | S fuel' =>
      if (pl <? pj) && (vp <? key_at tosort (pj - 1))
      then shift_right fuel' (<[Z.to_nat pj := deref tosort (pj - 1)]> tosort)
             vp pl (pj - 1)
      else (tosort, pj)
  end.

(** The insertion sort of [pl..pr], from [pi] on. *)
Fixpoint insertion_sort (fuel : nat) (tosort : list nat) (pl pr pi : Z)
    : list nat :=
  match fuel with
  | O => tosort
  | S fuel' =>
      if pi <=? pr then
        let vi := deref tosort pi in
        let vp := v !!! vi in
        let '(tosort, pj) := shift_right (length tosort) tosort vp pl pi in
        insertion_sort fuel' (<[Z.to_nat pj := vi]> tosort) pl pr (pi + 1)
      else tosort
  end.

(** The outer loop. [popped] tells that the range was just taken from the
    stack (or is the first one): the depth limit is tested there only. *)
Fixpoint aquicksort_loop (fuel : nat) (tosort : list nat) (pl pr cdepth : Z)
    (stack : list (Z * Z * Z)) (popped : bool) : option (list nat) :=
  match fuel with
  | O => None
  | S fuel' =>
      if popped && (cdepth <? 0) then None
      else if SMALL_QUICKSORT <? pr - pl then
        let '(tosort, pi) := partition tosort pl pr in
        let cdepth := cdepth - 1 in
        if pi - pl <? pr - pi
        then aquicksort_loop fuel' tosort pl (pi - 1) cdepth
               ((pi + 1, pr, cdepth) :: stack) false
        else aquicksort_loop fuel' tosort (pi + 1) pr cdepth
               ((pl, pi - 1, cdepth) :: stack) false
      else
        let tosort := insertion_sort (length tosort) tosort pl pr (pl + 1) in
        match stack with
        | [] => Some tosort
        | (pl, pr, cdepth) :: stack =>
            aquicksort_loop fuel' tosort pl pr cdepth stack true
        end
  end.

(** [tosort] starts as the positions in order; the depth limit is twice
    the position of the highest set bit of the length. *)
Definition aquicksort : option (list nat) :=
  let num := Z.of_nat (length v) in
  aquicksort_loop (2 * length v + 1) (seq 0 (length v)) 0 (num - 1)
    (2 * Z.log2 num) [] true.

End Aquicksort.

(** The index sort of the default kind. *)
Definition argsort_quicksort (keys : list Z) : list nat :=
  default [] (aquicksort keys).

(** ** Reference instances of the library functions

    Used to run the model on concrete inputs. *)

(** Insertion of a position into a list of positions ordered by key;
    [before k1 k2] tells whether a new key [k1] goes in front of [k2]. *)
Fixpoint insert_pos (before : Z → Z → bool) (keys : list Z) (i : nat)
    (sorted : list nat) : list nat :=
  match sorted with
  | [] => [i]
  | j :: rest =>
      if before (nth i keys 0) (nth j keys 0)
      then i :: j :: rest
      else j :: insert_pos before keys i rest
  end.

Definition argsort_by (before : Z → Z → bool) (keys : list Z) : list nat :=
  foldr (insert_pos before keys) [] (seq 0 (length keys)).

(** A stable index sort: equal keys keep their order. *)
Definition argsort_stable : list Z → list nat := argsort_by Z.leb.

(** The order a stable index sort produces: key first, position second. *)
Definition key_then_position (keys : list Z) (i j : nat) : Prop :=
  nth i keys 0 < nth j keys 0 ∨ (nth i keys 0 = nth j keys 0 ∧ (i < j)%nat).

(** A calendar-free stand-in for the date functions: times written as
    decimal microseconds. *)
Definition isoparse_micros : string → option datetime := parse_decimal.
Definition show_micros (t : datetime) : string := NilZero.string_of_int (Z.to_int t).

(** Sample data for running the model. *)

Definition sample_record (id : string) (created : option datetime) (subs : Z)
    (hidden : bool) : ChannelRecord :=
  {| channel_id := Some id; channel_name := Some id; description := None;
     published_at_str := show_micros <$> created; published_at := created;
     subscriber_count := subs; view_count := 0; video_count := 0;
     hidden_subscriber_count := hidden |}.

Definition sample_item (id : string) (created subs : option string)
    (hidden : option bool) : channel_item :=
  {| ci_id := Some id;
     ci_snippet := Some {| sn_title := Some id; sn_description := None;
                           sn_publishedAt := created |};
     ci_statistics := Some {| st_subscriberCount := subs;
                              st_viewCount := Some "10"%string;
                              st_videoCount := Some "2"%string;
                              st_hiddenSubscriberCount := hidden |} |}.


(** Flagged hidden, no count sent. *)
Definition item_hidden_no_count : channel_item :=
  sample_item "UChidden" (Some "1000"%string) None (Some true).

(** No creation time sent. *)
Definition item_without_date : channel_item :=
  sample_item "UCnodate" None (Some "7"%string) None.

(** Two records for the display: one flagged hidden with a stored count,
    one public. *)
Definition record_hidden : ChannelRecord :=
  sample_record "UChidden" (Some 2000) 1234 true.
Definition record_public : ChannelRecord :=
  sample_record "UCpublic" (Some 3000) 1234567 false.

(** Two search pages; the channel [UCa] owns a video on each. *)
Definition sample_search_item (v c : string) : search_item :=
  {| si_videoId := Some v; si_channelId := Some c |}.

Definition sample_page1 : result search_response :=
  Returned {| resp_items := [sample_search_item "v1" "UCa"; sample_search_item "v2" "UCb"];
              resp_nextPageToken := Some "t2"%string |}.
Definition sample_page2 : result search_response :=
  Returned {| resp_items := [sample_search_item "v3" "UCa"; sample_search_item "v4" "UCc"];
              resp_nextPageToken := None |}.

Definition sample_pages : list (result search_response) :=
  [sample_page1; sample_page2].

Definition sample_cutoff : string := "1700000000000000".

Definition quota_error : exn := HttpError "quotaExceeded".

(** Fifty-one channel ids, hence two batches; the first request fails and
    the second returns one channel. *)
Definition sample_ids : list string :=
  (λ n, "UC" +:+ show_micros (Z.of_nat n)) <$> seq 0 51.

Definition sample_channels_script : list (result channels_response) :=
  [Raised quota_error;
   Returned {| cr_items := [sample_item "UC50" (Some "2000"%string)
                              (Some "1200"%string) None] |}].

(** Two channels with the same subscriber count, in fetch order. *)
Definition tie_first : ChannelRecord := sample_record "UCfirst" (Some 5000) 700 false.
Definition tie_second : ChannelRecord := sample_record "UCsecond" (Some 6000) 700 false.


(** The scenario of a 30-day window: created 10, 60 and 5 days before
    [sample_today]. *)
Definition sample_today : datetime := timedelta_days 100.
Definition days_ago (d : Z) : datetime := sample_today - timedelta_days d.

Definition scenario_A : ChannelRecord := sample_record "A" (Some (days_ago 10)) 1000 false.
Definition scenario_B : ChannelRecord := sample_record "B" (Some (days_ago 60)) 5000 false.
Definition scenario_C : ChannelRecord := sample_record "C" (Some (days_ago 5)) 50 false.

(** A whole run: the client is built, the button is pressed, two search
    pages come back, and the one batch of channels is answered. *)
Definition sample_environment : environment :=
  {| env_build := Returned Youtube;
     env_button := true;
     env_search := sample_pages;
     env_channels :=
       [Returned {| cr_items :=
          [sample_item "UCa" (Some (show_micros (days_ago 3))) (Some "1200"%string) None;
           sample_item "UCb" (Some (show_micros (days_ago 40))) (Some "99000"%string) None;
           sample_item "UCc" (Some (show_micros (days_ago 7))) None (Some true)] |}] |}.

(** *** Vocabulary for further properties *)

(** The continuation token a call outcome leaves in [next_page_token]. *)
Definition page_token (r : result search_response) : option string :=
  match r with
  | Returned p => resp_nextPageToken p
  | Raised _ => None
  end.

(** A call outcome that brings the loop forward: it ends the search or
    hands over at least one item. *)
Definition makes_progress (r : result search_response) : Prop :=
  ends_search r = true ∨ page_items r ≠ [].

(** A page with no item and a continuation token. *)
Definition empty_page_with_token (r : result search_response) : Prop :=
  ∃ p, r = Returned p ∧ resp_items p = [] ∧ truthy (resp_nextPageToken p) = true.

Definition sample_empty_page : result search_response :=
  Returned {| resp_items := []; resp_nextPageToken := Some "more"%string |}.

(** The messages of the wrapper's two [except] clauses. *)
Definition build_handler (e : exn) : list msg :=
  if is_http_error e then [KeyCheckFailed e; KeyCheckHint] else [BuildUnexpected e].

(** The messages the channel detail fetcher can emit. *)
Definition fetch_msg (m : msg) : bool :=
  match m with
  | FetchingBatch _ _ _ | DateParseWarning _ _
  | ChannelsApiError _ _ _ | ChannelsQuotaHint | ChannelsUnexpected _ => true
  | _ => false
  end.

(** An item whose creation time does not parse, and one whose view count
    does not. *)
Definition item_bad_date : channel_item :=
  sample_item "UCbaddate" (Some "yesterday"%string) (Some "5"%string) None.

Definition item_bad_count : channel_item :=
  {| ci_id := Some "UCbadcount"%string;
     ci_snippet := Some {| sn_title := None; sn_description := None;
                           sn_publishedAt := Some "3000"%string |};
     ci_statistics := Some {| st_subscriberCount := Some "8"%string;
                              st_viewCount := Some "many"%string;
                              st_videoCount := Some "2"%string;
                              st_hiddenSubscriberCount := None |} |}.

(** Environments in which a stage fails: the client cannot be built; the
    second search call raises; the one channel request raises. *)
Definition environment_build_fails : environment :=
  {| env_build := Raised quota_error; env_button := true;
     env_search := sample_pages; env_channels := [] |}.

Definition environment_search_fails : environment :=
  {| env_build := Returned Youtube; env_button := true;
     env_search := [sample_page1; Raised quota_error]; env_channels := [] |}.

Definition environment_fetch_fails : environment :=
  {| env_build := Returned Youtube; env_button := true;
     env_search := sample_pages; env_channels := [Raised quota_error] |}.

(** * Properties *)

(** ** Filter and rank: the recency filter *)

Lemma elem_of_dropna (df : list ChannelRecord) (r : ChannelRecord) :
  r ∈ dropna df ↔ r ∈ df ∧ is_Some (published_at r).
Proof.
  unfold dropna. rewrite !list_elem_of_In, filter_In, bool_decide_eq_true. tauto.
Qed.

Lemma is_new_spec (C : datetime) (r : ChannelRecord) :
  is_new C r = true ↔ ∃ T, published_at r = Some T ∧ C ≤ T.
Proof.
  unfold is_new. destruct (published_at r) as [t|].
  - rewrite Z.leb_le. split; [eauto | intros (T & [= <-] & ?); done].
  - split; [done | intros (T & [=] & _)].
Qed.

Lemma elem_of_new_channels (C : datetime) (df : list ChannelRecord) (r : ChannelRecord) :
  r ∈ new_channels C df ↔ r ∈ df ∧ ∃ T, published_at r = Some T ∧ C ≤ T.
Proof.
  unfold new_channels.
  rewrite list_elem_of_In, filter_In, <- list_elem_of_In.
  rewrite elem_of_dropna, is_new_spec. split.
  - tauto.
  - intros (Hin & T & HT & Hle). repeat split; eauto.
Qed.

(** C1. A record survives the filter exactly when it is among the input
    records and has a creation time [T] with [T >= C]; in particular no
    surviving record lacks a creation time. *)
Theorem filter_keeps_exactly_recent (C : datetime) (df : list ChannelRecord) :
  (∀ r, r ∈ new_channels C df ↔ r ∈ df ∧ ∃ T, published_at r = Some T ∧ C ≤ T)
  ∧ Forall (λ r, published_at r ≠ None) (new_channels C df).
Proof.
  split; [apply elem_of_new_channels |].
  apply Forall_forall. intros r Hr%elem_of_new_channels.
  destruct Hr as (_ & T & -> & _). done.
Qed.

(** ** Channel detail fetcher: decoding one item *)

(** Up to fifty ids make one batch. *)
Lemma batch_starts_single (n : nat) :
  (0 < n ≤ MAX_CHANNELS_TO_FETCH_PER_CALL)%nat → batch_starts n = [0%nat].
Proof.
  unfold batch_starts, range0, MAX_CHANNELS_TO_FETCH_PER_CALL. intros Hn.
  replace ((n + (50 - 1)) / 50)%nat with 1%nat; [done|].
  apply (Nat.div_unique _ _ _ (n - 1)); lia.
Qed.

Section DecodeFacts.

Variable py_int : string → option Z.
Variable isoparse : string → option datetime.

(** When the counts decode, the record is assembled field by field. *)
Lemma build_record_Appended item sn stats pstr pdt r :
  build_record py_int item sn stats pstr pdt = Appended r →
  published_at_str r = pstr ∧ published_at r = pdt
  ∧ hidden_subscriber_count r = default false (st_hiddenSubscriberCount stats)
  ∧ (if truthy (st_subscriberCount stats)
     then py_int (py_str (st_subscriberCount stats)) = Some (subscriber_count r)
     else subscriber_count r = 0).
Proof.
  unfold build_record, int_default0, int_of.
  destruct (truthy (st_subscriberCount stats)) eqn:Hsub.
  - destruct (py_int (py_str (st_subscriberCount stats))) as [z|]; [|done].
    destruct (st_viewCount stats) as [v|];
      [destruct (py_int v); [|done] |];
      (destruct (st_videoCount stats) as [w|];
        [destruct (py_int w); [|done] |]);
      intros [= <-]; done.
  - destruct (st_viewCount stats) as [v|];
      [destruct (py_int v); [|done] |];
      (destruct (st_videoCount stats) as [w|];
        [destruct (py_int w); [|done] |]);
      intros [= <-]; done.
Qed.

Lemma build_record_total item sn stats pstr pdt :
  counts_decode py_int stats →
  ∃ r, build_record py_int item sn stats pstr pdt = Appended r.
Proof.
  intros (Hs & Hv & Hw). unfold build_record, int_default0, int_of.
  destruct (truthy (st_subscriberCount stats)).
  - destruct Hs as [z ->]; [done|].
    destruct (st_viewCount stats) as [v|];
      [destruct (Hv v eq_refl) as [? ->] |];
      (destruct (st_videoCount stats) as [w|];
        [destruct (Hw w eq_refl) as [? ->] |]); eauto.
  - destruct (st_viewCount stats) as [v|];
      [destruct (Hv v eq_refl) as [? ->] |];
      (destruct (st_videoCount stats) as [w|];
        [destruct (Hw w eq_refl) as [? ->] |]); eauto.
Qed.

Lemma decode_item_Appended item r :
  decode_item py_int isoparse item = Appended r →
  let sn := default empty_snippet (ci_snippet item) in
  let stats := default empty_statistics (ci_statistics item) in
  build_record py_int item sn stats (sn_publishedAt sn) (published_at r) = Appended r.
Proof.
  unfold decode_item. cbv zeta.
  destruct (truthy _).
  - destruct (isoparse _) as [dt|]; [|done].
    intros H. pose proof (build_record_Appended _ _ _ _ _ _ H) as (_ & -> & _). done.
  - intros H. pose proof (build_record_Appended _ _ _ _ _ _ H) as (_ & -> & _). done.
Qed.

(** X21. What line 156 computes: the stored subscriber count is 0 when the
    item carries no subscriber count value (absent or empty); when it
    carries one, the stored count is the [int] of that value, and the hidden
    flag is never consulted. The flag is stored as sent, false when
    absent. *)
Theorem subscriber_count_zero_when_absent (item : channel_item) (r : ChannelRecord) :
  decode_item py_int isoparse item = Appended r →
  let stats := default empty_statistics (ci_statistics item) in
  (truthy (st_subscriberCount stats) = false → subscriber_count r = 0)
  ∧ (truthy (st_subscriberCount stats) = true →
       py_int (py_str (st_subscriberCount stats)) = Some (subscriber_count r))
  ∧ hidden_subscriber_count r = default false (st_hiddenSubscriberCount stats).
Proof.
  intros H%decode_item_Appended. cbv zeta in *.
  apply build_record_Appended in H as (_ & _ & Hh & Hc).
  split_and!; [| | done]; intros Ht; rewrite Ht in Hc; done.
Qed.

(** C10. An item without a creation time (absent, or empty) whose counts
    decode is neither skipped nor warned about: its record, with no
    creation time, is appended and the warnings are those of the other
    items. The record is dropped later, by the filter's [dropna]. *)
Theorem absent_date_still_appended (item : channel_item) :
  truthy (sn_publishedAt (default empty_snippet (ci_snippet item))) = false →
  counts_decode py_int (default empty_statistics (ci_statistics item)) →
  ∃ r, decode_item py_int isoparse item = Appended r
       ∧ published_at r = None
       ∧ (∀ rest, decode_items py_int isoparse (item :: rest)
                  = let '(rs, ws, e) := decode_items py_int isoparse rest in
                    (r :: rs, ws, e))
       ∧ (∀ channel_ids : list string,
            (0 < length channel_ids ≤ MAX_CHANNELS_TO_FETCH_PER_CALL)%nat →
            get_channel_details py_int isoparse channel_ids
              [Returned {| cr_items := [item] |}]
            = Some ([r],
                    [FetchingBatch 1 (length channel_ids) (length channel_ids)],
                    [IoChannels channel_ids]))
       ∧ (∀ df, r ∉ dropna df)
       ∧ (∀ C df, r ∉ new_channels C df).
Proof.
  intros Hdate Hcounts.
  destruct (build_record_total item (default empty_snippet (ci_snippet item))
              _ (sn_publishedAt (default empty_snippet (ci_snippet item))) None Hcounts)
    as [r Hr].
  assert (Hdec : decode_item py_int isoparse item = Appended r).
  { unfold decode_item. cbv zeta. rewrite Hdate. exact Hr. }
  assert (Hnone : published_at r = None).
  { by apply build_record_Appended in Hr as (_ & -> & _). }
  exists r. split_and!; [done | done | | | |].
  - intros rest. cbn [decode_items]. rewrite Hdec. done.
  - intros channel_ids Hlen. unfold get_channel_details.
    rewrite batch_starts_single by done.
    cbn [fetch_batches fetch_batch cr_items decode_items]. rewrite Hdec.
    unfold batch_at. rewrite drop_0, take_ge by lia.
    cbn. by rewrite Nat.min_id.
  - intros df [_ Hs]%elem_of_dropna. rewrite Hnone in Hs. by destruct Hs.
  - intros C df Hin. apply elem_of_new_channels in Hin as (_ & T & HT & _).
    congruence.
Qed.

End DecodeFacts.


Lemma subscriber_count_zero_when_absent_witness :
  ∃ r, decode_item parse_decimal isoparse_micros item_hidden_no_count = Appended r
       ∧ subscriber_count r = 0 ∧ hidden_subscriber_count r = true.
Proof.
  eexists. split; [vm_compute; reflexivity|].
  split.
  - eapply (subscriber_count_zero_when_absent parse_decimal isoparse_micros
              item_hidden_no_count); reflexivity.
  - reflexivity.
Defined.

Lemma absent_date_still_appended_witness :
  ∃ r, decode_item parse_decimal isoparse_micros item_without_date = Appended r
       ∧ published_at r = None
       ∧ decode_items parse_decimal isoparse_micros [item_without_date] = ([r], [], None).
Proof.
  destruct (absent_date_still_appended parse_decimal isoparse_micros item_without_date)
    as (r & Hdec & Hnone & Hitems & _ & _ & _).
  - reflexivity.
  - vm_compute. split_and!; [eauto | intros v [= <-]; eauto | intros v [= <-]; eauto].
  - exists r. split_and!; [done | done |]. by rewrite Hitems.
Defined.

(** ** Presentation: formatted counts *)

Lemma filter_commas_rev (l : list ascii) :
  List.filter not_comma (commas_rev l) = List.filter not_comma l.
Proof.
  remember (length l) as n eqn:Hn.
  revert l Hn. induction (lt_wf n) as [n _ IH]. intros l ->.
  destruct l as [|a [|b [|c [|d rest]]]]; try reflexivity.
  change (commas_rev (a :: b :: c :: d :: rest))
    with (a :: b :: c :: comma :: commas_rev (d :: rest)).
  cbn [List.filter].
  rewrite (IH (length (d :: rest))) by (cbn [length]; lia || reflexivity).
  change (not_comma comma) with false. cbv iota. reflexivity.
Qed.

Lemma digits_no_comma (d : Decimal.uint) :
  List.filter not_comma (list_ascii_of_string (NilEmpty.string_of_uint d))
  = list_ascii_of_string (NilEmpty.string_of_uint d).
Proof.
  induction d; cbn [NilEmpty.string_of_uint list_ascii_of_string List.filter];
    [reflexivity | ..];
    (match goal with |- context [not_comma ?c] => change (not_comma c) with true end);
    cbv iota; congruence.
Qed.

Lemma decimal_digits_no_comma (n : Z) :
  List.filter not_comma (list_ascii_of_string (decimal_digits n))
  = list_ascii_of_string (decimal_digits n).
Proof.
  unfold decimal_digits, NilZero.string_of_uint.
  destruct (N.to_uint (Z.abs_N n)); try apply digits_no_comma. reflexivity.
Qed.

(** Dropping the separators of a formatted count leaves the plain decimal
    numeral. *)
Lemma strip_commas_format (n : Z) :
  strip_commas (format_thousands n) = NilZero.string_of_int (Z.to_int n).
Proof.
  assert (Hbody : ∀ m,
    strip_commas (string_of_list_ascii
      (rev (commas_rev (rev (list_ascii_of_string (decimal_digits m))))))
    = decimal_digits m).
  { intros m. unfold strip_commas.
    rewrite list_ascii_of_string_of_list_ascii.
    rewrite filter_rev, filter_commas_rev, <- filter_rev, rev_involutive.
    rewrite decimal_digits_no_comma. apply string_of_list_ascii_of_string. }
  unfold format_thousands. destruct n as [|p|p]; cbn [Z.ltb Z.compare].
  - apply Hbody.
  - rewrite Hbody. reflexivity.
  - change (strip_commas (String "-" ?b)) with (String "-" (strip_commas b)).
    rewrite Hbody. reflexivity.
Qed.

(** A formatted count reads back as the number. *)
Lemma parse_format_thousands (n : Z) :
  parse_decimal (strip_commas (format_thousands n)) = Some n.
Proof.
  unfold parse_decimal. rewrite strip_commas_format, NilZero.isi.
  - cbn. by rewrite DecimalZ.of_to.
  - destruct n; cbn; [discriminate | | discriminate].
    intros [= H]. by apply Unsigned.to_uint_nonnil in H.
  - destruct n; cbn; [discriminate | discriminate |].
    intros [= H]. by apply Unsigned.to_uint_nonnil in H.
Qed.

Lemma elem_of_take_rows {A : Type} (a : list A) (indexer : list nat) (x : A) :
  x ∈ take_rows a indexer → x ∈ a.
Proof.
  unfold take_rows. rewrite list_elem_of_omap.
  intros (i & _ & Hi). by eapply list_elem_of_lookup_2.
Qed.

(** The separators of a formatted count sit where the specification wants
    them. *)
Lemma grouped_commas_rev (l : list ascii) :
  l ≠ [] → forallb is_digit l = true →
  grouped_in_threes_rev (commas_rev l) = true.
Proof.
  remember (length l) as n eqn:Hn.
  revert l Hn. induction (lt_wf n) as [n _ IH]. intros l -> Hne Hd.
  destruct l as [|a [|b [|c [|d rest]]]]; [done | ..].
  - cbn in *. by rewrite andb_true_r in Hd.
  - cbn in *. by rewrite andb_true_r in Hd.
  - cbn in *. by rewrite andb_true_r, andb_assoc in Hd.
  - change (commas_rev (a :: b :: c :: d :: rest))
      with (a :: b :: c :: comma :: commas_rev (d :: rest)).
    cbn [forallb] in Hd.
    apply andb_prop in Hd as [Ha Hd]. apply andb_prop in Hd as [Hb Hd].
    apply andb_prop in Hd as [Hc Hd].
    cbn [grouped_in_threes_rev]. rewrite Ha, Hb, Hc.
    change (Ascii.eqb comma comma) with true. cbn [andb].
    apply (IH (length (d :: rest))); [cbn [length]; lia | reflexivity | done | exact Hd].
Qed.

Lemma uint_digits (d : Decimal.uint) :
  forallb is_digit (list_ascii_of_string (NilEmpty.string_of_uint d)) = true.
Proof.
  induction d; cbn [NilEmpty.string_of_uint list_ascii_of_string forallb];
    [reflexivity | ..];
    (match goal with |- context [is_digit ?c] => change (is_digit c) with true end);
    exact IHd.
Qed.

Lemma decimal_digits_digits (n : Z) :
  list_ascii_of_string (decimal_digits n) ≠ []
  ∧ forallb is_digit (list_ascii_of_string (decimal_digits n)) = true.
Proof.
  unfold decimal_digits, NilZero.string_of_uint.
  destruct (N.to_uint (Z.abs_N n)) as [|d|d|d|d|d|d|d|d|d|d];
    (split; [done|]); try apply (uint_digits (Decimal.D0 Decimal.Nil));
    match goal with |- context [NilEmpty.string_of_uint ?u] => apply (uint_digits u) end.
Qed.

(** [format_thousands] writes its argument with thousands separators. *)
Lemma format_thousands_separators (n : Z) :
  with_thousands_separators n (format_thousands n).
Proof.
  split; [apply strip_commas_format|].
  exists (string_of_list_ascii
            (rev (commas_rev (rev (list_ascii_of_string (decimal_digits n)))))).
  split; [reflexivity|].
  rewrite list_ascii_of_string_of_list_ascii, rev_involutive.
  destruct (decimal_digits_digits n) as [Hne Hd].
  apply grouped_commas_rev.
  - intros Hnil. apply Hne. apply (f_equal (@rev ascii)) in Hnil.
    by rewrite rev_involutive in Hnil.
  - apply forallb_forall. intros c Hc%in_rev.
    by eapply forallb_forall in Hd.
Qed.

Lemma digit_not_comma (c : ascii) : is_digit c = true → not_comma c = true.
Proof.
  intros Hd. unfold not_comma. destruct (Ascii.eqb_spec c comma) as [->|]; [|done].
  discriminate Hd.
Qed.

(** Grouped characters are their digits with the separators put in by
    [commas_rev]. *)
Lemma grouped_is_commas_rev (l : list ascii) :
  grouped_in_threes_rev l = true →
  List.filter not_comma l ≠ [] ∧ l = commas_rev (List.filter not_comma l).
Proof.
  remember (length l) as n eqn:Hn.
  revert l Hn. induction (lt_wf n) as [n _ IH]. intros l -> Hg.
  destruct l as [|a [|b [|c [|d rest]]]]; [done | ..];
    cbn [grouped_in_threes_rev] in Hg; rewrite ?andb_true_iff in Hg;
    cbn [List.filter].
  - apply digit_not_comma in Hg. rewrite Hg. done.
  - destruct Hg as [Ha%digit_not_comma Hb%digit_not_comma]. rewrite Ha, Hb. done.
  - destruct Hg as [[Ha%digit_not_comma Hb%digit_not_comma] Hc%digit_not_comma].
    rewrite Ha, Hb, Hc. done.
  - destruct Hg as [[[[Ha%digit_not_comma Hb%digit_not_comma] Hc%digit_not_comma]
                       Hd%Ascii.eqb_eq] Hrest].
    subst d. rewrite Ha, Hb, Hc.
    change (not_comma comma) with false. cbv iota.
    destruct (IH (length rest) ltac:(cbn [length]; lia) rest eq_refl Hrest)
      as [Hne Heq].
    split; [done|].
    destruct (List.filter not_comma rest) as [|x xs]; [done|].
    change (commas_rev (a :: b :: c :: x :: xs))
      with (a :: b :: c :: comma :: commas_rev (x :: xs)).
    by rewrite <- Heq.
Qed.

Lemma strip_commas_body (n : Z) (body : string) :
  strip_commas (if n <? 0 then String "-" body else body)
  = NilZero.string_of_int (Z.to_int n) →
  List.filter not_comma (list_ascii_of_string body)
  = list_ascii_of_string (decimal_digits n).
Proof.
  unfold strip_commas. destruct n as [|p|p]; cbn [Z.ltb Z.compare]; intros H.
  - apply (f_equal list_ascii_of_string) in H.
    by rewrite list_ascii_of_string_of_list_ascii in H.
  - apply (f_equal list_ascii_of_string) in H.
    by rewrite list_ascii_of_string_of_list_ascii in H.
  - cbn [list_ascii_of_string List.filter] in H.
    change (not_comma "-") with true in H. cbv iota in H.
    cbn [string_of_list_ascii] in H.
    change (NilZero.string_of_int (Z.to_int (Z.neg p)))
      with (String "-" (decimal_digits (Z.neg p))) in H.
    injection H as H. apply (f_equal list_ascii_of_string) in H.
    by rewrite list_ascii_of_string_of_list_ascii in H.
Qed.

(** The specification's wording admits one string for each number, the
    one [format_thousands] writes. *)
Lemma thousands_separators_unique (n : Z) (s : string) :
  with_thousands_separators n s ↔ s = format_thousands n.
Proof.
  split; [|intros ->; apply format_thousands_separators].
  intros (Hstrip & body & -> & Hg).
  apply strip_commas_body in Hstrip.
  apply grouped_is_commas_rev in Hg as [_ Heq].
  rewrite filter_rev, Hstrip in Heq.
  unfold format_thousands. rewrite <- Heq, rev_involutive.
  by rewrite string_of_list_ascii_of_string.
Qed.

(** A numeral without separators, or with misplaced ones, does not pass. *)
Example separators_are_required :
  with_thousands_separators 1234567 "1,234,567"
  ∧ ¬ with_thousands_separators 1234567 "1234567"
  ∧ ¬ with_thousands_separators 1234567 "12,34,567"
  ∧ with_thousands_separators 999 "999"
  ∧ with_thousands_separators (-1000) "-1,000".
Proof.
  rewrite !thousands_separators_unique. split_and!; done.
Qed.

(** ** API client wrapper and the credential guard *)

(** C9. With an empty credential the wrapper warns, asking for the key,
    returns no handle and makes no call; and a run with an empty credential
    makes no network call at all, whatever the environment. *)
Theorem empty_credential_no_network :
  (∀ build, get_youtube_service "" build = (None, [AskApiKey], []))
  ∧ msg_level AskApiKey = LWarning
  ∧ (∀ py_int isoparse isoformat strftime argsort max_videos new_channel_days today env,
       ∃ out, main py_int isoparse isoformat strftime argsort
                "" max_videos new_channel_days today env = Some out
              ∧ out_io out = []
              ∧ out_table out = None ∧ out_download out = None).
Proof.
  split_and!; [done | done |].
  intros. eexists. split; [reflexivity | done].
Qed.

(** With a key, the wrapper does call the client library. *)
Lemma nonempty_credential_builds (key : string) (build : result handle) :
  key ≠ ""%string → (get_youtube_service key build).2 = [IoBuild key].
Proof.
  intros Hkey. unfold get_youtube_service.
  destruct key as [|c key]; [done|]. cbn. destruct build as [h|e]; [done|].
  by destruct (is_http_error e).
Qed.

(** ** Popular-video finder *)

Lemma size_add_le (c : string) (X : gset string) :
  (size ({[c]} ∪ X) ≤ S (size X))%nat.
Proof.
  rewrite size_union_alt, size_singleton.
  assert (size (X ∖ {[c]}) ≤ size X)%nat by (apply subseteq_size; set_solver).
  lia.
Qed.

(** Adding an id that is already there changes nothing. *)
Lemma add_present (c : string) (X : gset string) : c ∈ X → {[c]} ∪ X = X.
Proof. set_solver. Qed.

Lemma state_after_step seen st v c item :
  state_after seen st →
  si_videoId item = Some v → si_channelId item = Some c →
  state_after (seen ++ [item])
    {| video_ids := video_ids st ++ [v];
       channel_ids := {[c]} ∪ channel_ids st;
       next_page_token := next_page_token st;
       results_fetched := results_fetched st + 1 |}.
Proof.
  intros (Hwf & Hv & Hc & Hn) Hiv Hic. unfold state_after. cbn.
  split_and!.
  - apply Forall_app. split; [done|]. apply Forall_singleton. split; eauto.
  - unfold item_videos. rewrite omap_app. cbn. rewrite Hiv. cbn. by rewrite Hv.
  - unfold item_channels. rewrite omap_app. cbn. rewrite Hic. cbn.
    rewrite list_to_set_app_L, Hc. set_solver.
  - rewrite length_app. cbn. lia.
Qed.

(** The item loop without exception: it goes through the first items of
    the page, as many as the quota still allows. *)
Lemma scan_items_ok max_results items : ∀ st seen st',
  state_after seen st →
  results_fetched st < max_results →
  scan_items max_results items st = (st', None) →
  state_after (seen ++ take (Z.to_nat (max_results - results_fetched st)) items) st'
  ∧ next_page_token st' = next_page_token st.
Proof.
  induction items as [|item rest IH]; intros st seen st' Hst Hlt Hscan.
  - cbn in Hscan. injection Hscan as <-. rewrite take_nil, app_nil_r. done.
  - cbn [scan_items] in Hscan.
    destruct (si_videoId item) as [v|] eqn:Hv; [|done].
    destruct (si_channelId item) as [c|] eqn:Hc; [|done].
    cbn [video_ids channel_ids next_page_token results_fetched] in Hscan.
    pose proof (state_after_step _ _ _ _ _ Hst Hv Hc) as Hstep.
    replace (Z.to_nat (max_results - results_fetched st))
      with (S (Z.to_nat (max_results - (results_fetched st + 1)))) by lia.
    cbn [take]. destruct (max_results <=? results_fetched st + 1) eqn:Hfull.
    + injection Hscan as <-. apply Z.leb_le in Hfull.
      replace (Z.to_nat (max_results - (results_fetched st + 1))) with 0%nat by lia.
      rewrite take_0. done.
    + apply Z.leb_gt in Hfull.
      apply (IH _ (seen ++ [item])) in Hscan as [Hafter Htok]; [|done|cbn; lia].
      cbn in Hafter, Htok. rewrite <- (assoc_L (++)) in Hafter. done.
Qed.

(** The item loop, whatever its outcome: the counters stay within the
    quota; an item that raised was not counted. *)
Lemma scan_items_counts max_results items : ∀ st st' ex,
  results_fetched st < max_results →
  scan_items max_results items st = (st', ex) →
  (results_fetched st ≤ results_fetched st' ≤ max_results)
  ∧ (ex ≠ None → results_fetched st' < max_results)
  ∧ Z.of_nat (length (video_ids st')) - Z.of_nat (length (video_ids st))
    ≤ results_fetched st' - results_fetched st
      + match ex with Some _ => 1 | None => 0 end
  ∧ (ex = None →
       Z.of_nat (length (video_ids st')) - Z.of_nat (length (video_ids st))
       = results_fetched st' - results_fetched st)
  ∧ Z.of_nat (size (channel_ids st')) - Z.of_nat (size (channel_ids st))
    ≤ results_fetched st' - results_fetched st.
Proof.
  induction items as [|item rest IH]; intros st st' ex Hlt Hscan.
  - cbn in Hscan. injection Hscan as <- <-. split_and!; [lia..|done|lia|lia|lia].
  - cbn [scan_items] in Hscan.
    destruct (si_videoId item) as [v|].
    2:{ injection Hscan as <- <-. split_and!; [lia..|done|lia|done|lia]. }
    destruct (si_channelId item) as [c|].
    2:{ injection Hscan as <- <-. cbn. rewrite length_app. cbn.
        split_and!; [lia..|done|lia|done|lia]. }
    cbn [video_ids channel_ids next_page_token results_fetched] in Hscan.
    pose proof (size_add_le c (channel_ids st)) as Hsize.
    destruct (max_results <=? results_fetched st + 1) eqn:Hfull.
    + injection Hscan as <- <-. apply Z.leb_le in Hfull. cbn.
      rewrite length_app. cbn. split_and!; [lia..|done|lia|lia|lia].
    + apply Z.leb_gt in Hfull.
      apply IH in Hscan as (H1 & H2 & H3 & H4 & H5); [|cbn; lia].
      cbn in H1, H3, H4, H5. rewrite length_app in H3, H4. cbn in H3, H4.
      split_and!; [lia | lia | done | lia | intros ->; specialize (H4 eq_refl); lia | lia].
Qed.

Lemma search_loop_done pa max_results script st :
  (results_fetched st <? max_results) = false →
  search_loop pa max_results script st = Some (st, None, []).
Proof. intros H. destruct script; cbn; by rewrite H. Qed.

Lemma state_after_set_token seen tok st :
  state_after seen st → state_after seen (set_token tok st).
Proof. done. Qed.

Lemma state_after_lengths seen st :
  state_after seen st → counts_inv st.
Proof.
  intros (Hwf & Hv & Hc & Hn). unfold counts_inv. rewrite Hn, Hv, Hc. split.
  - f_equal. clear -Hwf. induction Hwf as [|item l [[v Hv] _] _ IH]; [done|].
    unfold item_videos in *. cbn. rewrite Hv. cbn. by rewrite IH.
  - apply inj_le. clear. induction seen as [|item l IH]; [done|].
    unfold item_channels in *. cbn. destruct (si_channelId item); cbn; [|lia].
    pose proof (size_add_le s (list_to_set (omap si_channelId l))). cbn in *. lia.
Qed.

(** The page loop, whatever its outcome: the counters stay within the
    quota. *)
Lemma search_loop_counts pa max_results script : ∀ st st' ex reqs,
  counts_inv st →
  results_fetched st ≤ Z.max 0 max_results →
  search_loop pa max_results script st = Some (st', ex, reqs) →
  results_fetched st' ≤ Z.max 0 max_results
  ∧ Z.of_nat (length (video_ids st')) ≤ Z.max 0 max_results
  ∧ Z.of_nat (size (channel_ids st')) ≤ results_fetched st'.
Proof.
  induction script as [|r script' IH]; intros st st' ex reqs [Hlen Hsize] Hmax Hloop;
    destruct (results_fetched st <? max_results) eqn:Hlt;
    try (rewrite search_loop_done in Hloop by done; injection Hloop as <- <- <-; lia).
  - cbn in Hloop. by rewrite Hlt in Hloop.
  - cbn [search_loop] in Hloop. rewrite Hlt in Hloop. apply Z.ltb_lt in Hlt.
    destruct r as [p|e].
    2:{ injection Hloop as <- <- <-. lia. }
    destruct (scan_items max_results (resp_items p) st) as [st1 ex1] eqn:Hscan.
    apply scan_items_counts in Hscan as (H1 & H2 & H3 & H4 & H5); [|done].
    destruct ex1 as [e|].
    { injection Hloop as <- <- <-. specialize (H2 ltac:(done)). lia. }
    specialize (H4 eq_refl).
    destruct (_ || _).
    { injection Hloop as <- <- <-. cbn. lia. }
    destruct (search_loop _ _ script' _) as [[[st3 e3] reqs3]|] eqn:Hrec; [|done].
    injection Hloop as <- <- <-.
    apply IH in Hrec; [done | split; cbn; lia | cbn; lia].
Qed.

Lemma take_quota_app (max_results : Z) (seen items : list search_item) :
  Z.of_nat (length seen) ≤ Z.max 0 max_results →
  take (Z.to_nat max_results) (seen ++ items)
  = seen ++ take (Z.to_nat (max_results - Z.of_nat (length seen))) items.
Proof.
  intros H. rewrite take_app, take_ge by lia. do 2 f_equal. lia.
Qed.

(** The page loop without exception: the state is the one after the
    scanned items of the pages it called for. *)
Lemma search_loop_after pa max_results script : ∀ st seen st' reqs,
  state_after seen st →
  Z.of_nat (length seen) ≤ Z.max 0 max_results →
  search_loop pa max_results script st = Some (st', None, reqs) →
  state_after
    (take (Z.to_nat max_results)
       (seen ++ concat (page_items <$> take (length reqs) script))) st'.
Proof.
  induction script as [|r script' IH]; intros st seen st' reqs Hst Hmax Hloop;
    destruct (results_fetched st <? max_results) eqn:Hlt;
    try (rewrite search_loop_done in Hloop by done; injection Hloop as <- <-;
         cbn [length]; rewrite take_0; cbn; rewrite app_nil_r, take_ge by lia; done).
  - cbn in Hloop. by rewrite Hlt in Hloop.
  - cbn [search_loop] in Hloop. rewrite Hlt in Hloop. apply Z.ltb_lt in Hlt.
    destruct r as [p|e]; [|done].
    destruct (scan_items max_results (resp_items p) st) as [st1 [e|]] eqn:Hscan; [done|].
    apply (scan_items_ok _ _ _ seen) in Hscan as [Hafter Htok]; [|done..].
    pose proof Hst as (_ & _ & _ & Hn).
    destruct (_ || _) eqn:Hstop.
    + injection Hloop as <- <-. cbn. rewrite take_0, app_nil_r.
      rewrite take_quota_app by done. rewrite <- Hn. by apply state_after_set_token.
    + destruct (search_loop _ _ script' _) as [[[st3 e3] reqs3]|] eqn:Hrec; [|done].
      injection Hloop as <- -> <-.
      apply orb_false_iff in Hstop as [_ Hmore]. apply Z.leb_gt in Hmore. cbn in Hmore.
      pose proof Hafter as (_ & _ & _ & Hn1). rewrite Hn1 in Hmore.
      rewrite length_app, length_take in Hmore.
      assert (Hall : take (Z.to_nat (max_results - results_fetched st)) (resp_items p)
                     = resp_items p) by (apply take_ge; lia).
      rewrite Hall in Hafter.
      apply (IH _ (seen ++ resp_items p)) in Hrec;
        [| by apply state_after_set_token | rewrite length_app in *; lia].
      cbn. by rewrite (assoc_L (++)).
Qed.

(** Every request asks for the smaller of the page ceiling and what is
    left of the quota after the pages before it. *)
Lemma search_loop_requests pa max_results script : ∀ st seen st' ex reqs k req,
  state_after seen st →
  Z.of_nat (length seen) ≤ Z.max 0 max_results →
  search_loop pa max_results script st = Some (st', ex, reqs) →
  reqs !! k = Some req →
  sr_maxResults req
  = Z.min MAX_VIDEO_RESULTS_PER_PAGE
      (max_results
       - Z.of_nat (length (take (Z.to_nat max_results)
                             (seen ++ concat (page_items <$> take k script)))))
  ∧ (k < length script)%nat.
Proof.
  induction script as [|r script' IH]; intros st seen st' ex reqs k req Hst Hmax Hloop Hk;
    destruct (results_fetched st <? max_results) eqn:Hlt;
    try (rewrite search_loop_done in Hloop by done; by injection Hloop as <- <- <-).
  - cbn in Hloop. by rewrite Hlt in Hloop.
  - cbn [search_loop] in Hloop. rewrite Hlt in Hloop. apply Z.ltb_lt in Hlt.
    pose proof Hst as (_ & _ & _ & Hn).
    assert (Hfirst : ∀ req0 : search_request,
      sr_maxResults req0
        = Z.min MAX_VIDEO_RESULTS_PER_PAGE (max_results - results_fetched st) →
      [req0] !! k = Some req →
      sr_maxResults req
      = Z.min MAX_VIDEO_RESULTS_PER_PAGE
          (max_results
           - Z.of_nat (length (take (Z.to_nat max_results)
                (seen ++ concat (page_items <$> take k (r :: script'))))))
      ∧ (k < length (r :: script'))%nat).
    { intros req0 Hreq0 Hk0. destruct k as [|k]; [|done]. injection Hk0 as <-.
      cbn. rewrite app_nil_r, take_ge by lia. rewrite Hreq0, Hn. split; [done|lia]. }
    destruct r as [p|e].
    2:{ injection Hloop as <- <- <-. eapply Hfirst; [|exact Hk]; reflexivity. }
    destruct (scan_items max_results (resp_items p) st) as [st1 [e|]] eqn:Hscan.
    { injection Hloop as <- <- <-. eapply Hfirst; [|exact Hk]; reflexivity. }
    destruct (_ || _) eqn:Hstop.
    { injection Hloop as <- <- <-. eapply Hfirst; [|exact Hk]; reflexivity. }
    destruct (search_loop _ _ script' _) as [[[st3 e3] reqs3]|] eqn:Hrec; [|done].
    injection Hloop as <- <- <-.
    destruct k as [|k].
    { eapply Hfirst; [|exact Hk]; reflexivity. }
    cbn in Hk.
    apply (scan_items_ok _ _ _ seen) in Hscan as [Hafter Htok]; [|done..].
    apply orb_false_iff in Hstop as [_ Hmore]. apply Z.leb_gt in Hmore. cbn in Hmore.
    pose proof Hafter as (_ & _ & _ & Hn1). rewrite Hn1 in Hmore.
    rewrite length_app, length_take in Hmore.
    assert (Hall : take (Z.to_nat (max_results - results_fetched st)) (resp_items p)
                   = resp_items p) by (apply take_ge; lia).
    rewrite Hall in Hafter.
    eapply (IH _ (seen ++ resp_items p)) in Hrec as [Hreq Hlen];
      [| by apply state_after_set_token | rewrite length_app in *; lia | exact Hk].
    cbn. rewrite (assoc_L (++)). split; [done|lia].
Qed.

(** The loop returns as soon as the script holds an outcome that ends it. *)
Lemma search_loop_total pa max_results script : ∀ st,
  Exists (λ r, ends_search r = true) script →
  is_Some (search_loop pa max_results script st).
Proof.
  induction script as [|r script' IH]; intros st Hex; [by apply Exists_nil in Hex|].
  cbn [search_loop]. destruct (_ <? _); [|done].
  destruct r as [p|e]; [|done].
  destruct (scan_items _ _ _) as [st1 [e|]]; [done|].
  destruct (_ || _) eqn:Hstop; [done|].
  apply Exists_cons in Hex as [Hhere|Hlater].
  - cbn in Hhere, Hstop. rewrite Hhere in Hstop. done.
  - destruct (IH (set_token (resp_nextPageToken p) st1) Hlater) as [[[? ?] ?] ->]. done.
Qed.

(** When the loop has gone through the pages of [pre] and calls again, an
    exception raised by that call ends it; the ids of [pre] are in the
    state at that moment. *)
Lemma search_loop_pending pa max_results pre : ∀ st seen e post,
  state_after seen st →
  search_loop pa max_results pre st = None →
  ∃ st' reqs,
    search_loop pa max_results (pre ++ Raised e :: post) st = Some (st', Some e, reqs)
    ∧ state_after (seen ++ concat (page_items <$> pre)) st'
    ∧ length reqs = S (length pre).
Proof.
  induction pre as [|r pre' IH]; intros st seen e post Hst Hnone.
  - cbn in Hnone |- *. destruct (_ <? _); [|done].
    eexists _, _. rewrite app_nil_r. done.
  - cbn [search_loop app] in Hnone |- *. destruct (_ <? _) eqn:Hlt; [|done].
    apply Z.ltb_lt in Hlt.
    destruct r as [p|e0]; [|done].
    destruct (scan_items _ _ _) as [st1 [e1|]] eqn:Hscan; [done|].
    destruct (_ || _) eqn:Hstop; [done|].
    destruct (search_loop _ _ pre' _) eqn:Hrec; [by destruct p0 as [[? ?] ?]|].
    apply (scan_items_ok _ _ _ seen) in Hscan as [Hafter Htok]; [|done..].
    apply orb_false_iff in Hstop as [_ Hmore]. apply Z.leb_gt in Hmore. cbn in Hmore.
    pose proof Hst as (_ & _ & _ & Hn).
    pose proof Hafter as (_ & _ & _ & Hn1). rewrite Hn1 in Hmore.
    rewrite length_app, length_take in Hmore.
    assert (Hall : take (Z.to_nat (max_results - results_fetched st)) (resp_items p)
                   = resp_items p) by (apply take_ge; lia).
    rewrite Hall in Hafter.
    destruct (IH _ (seen ++ resp_items p) e post
                (state_after_set_token _ (resp_nextPageToken p) _ Hafter) Hrec)
      as (st' & reqs & -> & Hst' & Hlen).
    eexists _, _. split_and!; [done| |cbn; by rewrite Hlen].
    cbn. by rewrite (assoc_L (++)).
Qed.

Lemma elements_list_to_set_dedup (l : list string) :
  elements (list_to_set (C:=gset string) l) ≡ₚ remove_dups l.
Proof.
  replace (list_to_set (C:=gset string) l)
    with (list_to_set (C:=gset string) (remove_dups l)).
  - apply elements_list_to_set, NoDup_remove_dups.
  - apply set_eq. intros x. by rewrite !elem_of_list_to_set, elem_of_remove_dups.
Qed.

Lemma search_handler_reports e : existsb is_error (search_handler e) = true.
Proof. unfold search_handler. by destruct (is_http_error e). Qed.

Lemma search_popular_videos_total pa max_results script :
  Exists (λ r, ends_search r = true) script →
  is_Some (search_popular_videos pa max_results script).
Proof.
  intros H. unfold search_popular_videos.
  destruct (search_loop_total pa max_results script finder_init H)
    as [[[st [e|]] reqs] ->]; done.
Qed.

(** C5. The finder returns once a page without continuation or an
    exception is among the call outcomes, and what it returns has no
    repeated id. When no error ended the search, the output is, up to order,
    the owning-channel ids of the scanned items with duplicates removed: an
    id is in the output exactly when some scanned item carries it. Adding an
    id that is already in the set leaves the set as it is. *)
Theorem finder_ids_unique (pa : string) (max_results : Z)
    (script : list (result search_response)) :
  (Exists (λ r, ends_search r = true) script →
     is_Some (search_popular_videos pa max_results script))
  ∧ (∀ ids ms io,
       search_popular_videos pa max_results script = Some (ids, ms, io) →
       NoDup ids
       ∧ (existsb is_error ms = false →
            ids ≡ₚ remove_dups
                     (item_channels (scanned_items max_results script (length io)))
            ∧ ∀ c, c ∈ ids
                   ↔ c ∈ item_channels (scanned_items max_results script (length io))))
  ∧ (∀ st v c, c ∈ channel_ids st →
       channel_ids (scan_items max_results
                      [{| si_videoId := Some v; si_channelId := Some c |}] st).1
       = channel_ids st).
Proof.
  split_and!.
  - apply search_popular_videos_total.
  - intros ids ms io. unfold search_popular_videos.
    destruct (search_loop _ _ _ _) as [[[st [e|]] reqs]|] eqn:Hloop; [| |done].
    + intros [= <- <- <-]. split; [apply NoDup_nil_2|].
      cbn. by rewrite search_handler_reports.
    + intros [= <- <- <-]. split; [apply NoDup_elements|].
      intros _. rewrite length_fmap.
      apply (search_loop_after _ _ _ _ []) in Hloop as (_ & _ & Hc & _);
        [|done|cbn; lia].
      cbn in Hc. fold (scanned_items max_results script (length reqs)) in Hc.
      rewrite Hc. split; [apply elements_list_to_set_dedup|].
      intros c. by rewrite elem_of_elements, elem_of_list_to_set.
  - intros st0 v c Hc. cbn. destruct (_ <=? _); cbn; by apply add_present.
Qed.

(** C6. The finder returns once a page without continuation or an
    exception is among the call outcomes. It goes through at most
    [max_results] video items; the returned list is no longer than the set of
    ids, which is no larger than the number of items gone through; without
    error the list has as many entries as there are distinct owning-channel
    ids among the scanned items; and each request asks for the smaller of the
    page ceiling and the quota left after the pages before it. *)
Theorem finder_within_quota (pa : string) (max_results : Z)
    (script : list (result search_response)) :
  (Exists (λ r, ends_search r = true) script →
     is_Some (search_popular_videos pa max_results script))
  ∧ ∀ st ex reqs ids ms io,
      search_loop pa max_results script finder_init = Some (st, ex, reqs) →
      search_popular_videos pa max_results script = Some (ids, ms, io) →
      (results_fetched st ≤ Z.max 0 max_results
       ∧ Z.of_nat (length (video_ids st)) ≤ Z.max 0 max_results)
      ∧ (Z.of_nat (length ids) ≤ Z.of_nat (size (channel_ids st))
         ∧ Z.of_nat (size (channel_ids st)) ≤ results_fetched st)
      ∧ (ex = None →
           results_fetched st
           = Z.of_nat (length (scanned_items max_results script (length reqs)))
           ∧ video_ids st = item_videos (scanned_items max_results script (length reqs))
           ∧ length ids
             = length (remove_dups
                         (item_channels
                            (scanned_items max_results script (length reqs)))))
      ∧ (∀ k req, reqs !! k = Some req →
           sr_maxResults req
           = Z.min MAX_VIDEO_RESULTS_PER_PAGE
               (max_results
                - Z.of_nat (length (scanned_items max_results script k)))).
Proof.
  split; [apply search_popular_videos_total|].
  intros st ex reqs ids ms io Hloop Hout.
  assert (Hinit : state_after [] finder_init) by done.
  pose proof (search_loop_counts _ _ _ _ _ _ _
                (state_after_lengths _ _ Hinit) ltac:(cbn; lia) Hloop) as (H1 & H2 & H3).
  unfold search_popular_videos in Hout. rewrite Hloop in Hout.
  split_and!; [done | done | | done | |].
  - destruct ex; injection Hout as <- <- <-; [cbn; lia | done].
  - intros ->. injection Hout as <- <- <-.
    apply (search_loop_after _ _ _ _ []) in Hloop as (_ & Hv & Hc & Hn); [|done|cbn; lia].
    cbn in Hv, Hc, Hn. fold (scanned_items max_results script (length reqs)) in Hv, Hc, Hn.
    split_and!; [done | done |].
    rewrite Hc. apply Permutation_length, elements_list_to_set_dedup.
  - intros k req Hk.
    by destruct (search_loop_requests _ _ _ _ [] _ _ _ _ _ Hinit ltac:(cbn; lia) Hloop Hk).
Qed.

(** C7. An exception in the page loop, whether raised by a call or by an
    item, makes the finder return the empty list and report the error,
    whatever ids the set held; without exception it returns the ids of the
    set. In particular, when the loop has gone through the pages [pre] and
    its next call raises, the result is empty although the ids of [pre] had
    been collected. *)
Theorem search_error_returns_empty (pa : string) (max_results : Z) :
  (∀ script st e reqs,
     search_loop pa max_results script finder_init = Some (st, Some e, reqs) →
     search_popular_videos pa max_results script
     = Some ([], Searching NEW_CHANNEL_DAYS_THRESHOLD :: search_handler e,
             IoSearch <$> reqs))
  ∧ (∀ script st reqs,
       search_loop pa max_results script finder_init = Some (st, None, reqs) →
       search_popular_videos pa max_results script
       = Some (elements (channel_ids st),
               [Searching NEW_CHANNEL_DAYS_THRESHOLD; FoundChannels (size (channel_ids st))],
               IoSearch <$> reqs))
  ∧ (∀ pre e post,
       search_loop pa max_results pre finder_init = None →
       ∃ st reqs,
         search_loop pa max_results (pre ++ Raised e :: post) finder_init
         = Some (st, Some e, reqs)
         ∧ channel_ids st = list_to_set (item_channels (concat (page_items <$> pre)))
         ∧ search_popular_videos pa max_results (pre ++ Raised e :: post)
           = Some ([], Searching NEW_CHANNEL_DAYS_THRESHOLD :: search_handler e,
                   IoSearch <$> reqs)
         ∧ existsb is_error (search_handler e) = true).
Proof.
  split_and!.
  - intros script st e reqs Hloop. unfold search_popular_videos. by rewrite Hloop.
  - intros script st reqs Hloop. unfold search_popular_videos. by rewrite Hloop.
  - intros pre e post Hnone.
    destruct (search_loop_pending pa max_results pre finder_init [] e post
                ltac:(done) Hnone)
      as (st & reqs & Hloop & (_ & _ & Hc & _) & _).
    exists st, reqs. split_and!; [done | done | | apply search_handler_reports].
    unfold search_popular_videos. by rewrite Hloop.
Qed.

Lemma finder_ids_unique_witness :
  ∃ ids ms io,
    search_popular_videos sample_cutoff 10 sample_pages = Some (ids, ms, io)
    ∧ NoDup ids
    ∧ (∀ c, c ∈ ids ↔ c ∈ ["UCa"; "UCb"; "UCa"; "UCc"]%string).
Proof.
  destruct (search_popular_videos sample_cutoff 10 sample_pages)
    as [[[ids ms] io]|] eqn:H; [|by vm_compute in H].
  exists ids, ms, io. split; [done|].
  destruct (finder_ids_unique sample_cutoff 10 sample_pages) as (_ & Hout & _).
  destruct (Hout _ _ _ H) as (Hnd & Hsucc).
  split; [done|].
  vm_compute in H. injection H as <- <- <-.
  destruct Hsucc as [_ Hmem]; [reflexivity|]. exact Hmem.
Defined.

Lemma finder_within_quota_witness :
  ∃ st reqs ids ms io,
    search_loop sample_cutoff 3 sample_pages finder_init = Some (st, None, reqs)
    ∧ search_popular_videos sample_cutoff 3 sample_pages = Some (ids, ms, io)
    ∧ results_fetched st ≤ 3
    ∧ (Z.of_nat (length ids) ≤ results_fetched st)
    ∧ sr_maxResults <$> reqs = [3; 1].
Proof.
  destruct (search_loop sample_cutoff 3 sample_pages finder_init)
    as [[[st ex] reqs]|] eqn:Hloop; [|by vm_compute in Hloop].
  destruct (search_popular_videos sample_cutoff 3 sample_pages)
    as [[[ids ms] io]|] eqn:Hout; [|by vm_compute in Hout].
  destruct (finder_within_quota sample_cutoff 3 sample_pages) as (_ & Hquota).
  destruct (Hquota _ _ _ _ _ _ Hloop Hout)
    as ((Hfetched & _) & (Hids & Hsize) & _ & _).
  vm_compute in Hloop. injection Hloop as <- <- <-.
  eexists _, _, ids, ms, io. split_and!; [reflexivity | done | exact Hfetched | | reflexivity].
  etrans; [exact Hids | exact Hsize].
Defined.

Lemma search_error_returns_empty_witness :
  ∃ st reqs,
    search_loop sample_cutoff 10 ([sample_page1] ++ [Raised quota_error]) finder_init
    = Some (st, Some quota_error, reqs)
    ∧ channel_ids st = list_to_set ["UCa"; "UCb"]%string
    ∧ search_popular_videos sample_cutoff 10 ([sample_page1] ++ [Raised quota_error])
      = Some ([], [Searching 30; SearchApiError quota_error; SearchQuotaHint],
              IoSearch <$> reqs).
Proof.
  destruct (search_error_returns_empty sample_cutoff 10) as (_ & _ & Hcall).
  destruct (Hcall [sample_page1] quota_error []) as (st & reqs & H1 & H2 & H3 & _).
  - reflexivity.
  - exists st, reqs. split_and!; [exact H1 | exact H2 | exact H3].
Defined.

(** ** Channel detail fetcher: batches *)

Section BatchFacts.

Variable py_int : string → option Z.
Variable isoparse : string → option datetime.

Lemma fetch_batch_records channel_ids i r :
  (fetch_batch py_int isoparse channel_ids i r).1 = batch_records py_int isoparse r.
Proof.
  unfold fetch_batch, batch_records. destruct r as [resp|e]; [|done].
  by destruct (decode_items _ _ _) as [[rs ws] e].
Qed.

Lemma fetch_batch_reports channel_ids i e m :
  m ∈ batch_handler (i + 1) (i + length (batch_at channel_ids i)) e →
  m ∈ (fetch_batch py_int isoparse channel_ids i (Raised e)).2.
Proof. unfold fetch_batch. cbn. set_solver. Qed.

(** The batch loop: every start gets its request, whatever happened to
    the batches before it. *)
Lemma fetch_batches_spec channel_ids starts : ∀ script rs ms io,
  fetch_batches py_int isoparse channel_ids starts script = Some (rs, ms, io) →
  rs = concat (batch_records py_int isoparse <$> take (length starts) script)
  ∧ io = (λ i, IoChannels (batch_at channel_ids i)) <$> starts
  ∧ (length starts ≤ length script)%nat
  ∧ (∀ k i e m, starts !! k = Some i → script !! k = Some (Raised e) →
       m ∈ batch_handler (i + 1) (i + length (batch_at channel_ids i)) e → m ∈ ms).
Proof.
  induction starts as [|i starts' IH]; intros script rs ms io Hrun.
  - injection Hrun as <- <- <-. split_and!; [done | done | cbn; lia | done].
  - cbn [fetch_batches] in Hrun. destruct script as [|r script']; [done|].
    destruct (fetch_batch _ _ _ _ _) as [rs0 ms0] eqn:Hbatch.
    destruct (fetch_batches _ _ _ _ _) as [[[rs' ms'] evs]|] eqn:Hrec; [|done].
    injection Hrun as <- <- <-.
    destruct (IH _ _ _ _ Hrec) as (-> & -> & Hlen & Hrep).
    split_and!.
    + cbn. f_equal. by rewrite <- (fetch_batch_records channel_ids i), Hbatch.
    + done.
    + cbn. lia.
    + intros [|k] j e m Hj Hk Hm; cbn in Hj, Hk.
      * injection Hj as <-. injection Hk as ->.
        apply elem_of_app. left.
        apply fetch_batch_reports in Hm. by rewrite Hbatch in Hm.
      * apply elem_of_app. right. by eapply Hrep.
Qed.

Lemma fetch_batches_total channel_ids starts : ∀ script,
  (length starts ≤ length script)%nat →
  is_Some (fetch_batches py_int isoparse channel_ids starts script).
Proof.
  induction starts as [|i starts' IH]; intros script Hlen; [done|].
  destruct script as [|r script']; [cbn in Hlen; lia|].
  cbn [fetch_batches]. destruct (fetch_batch _ _ _ _ _) as [rs0 ms0].
  destruct (IH script') as [[[rs' ms'] evs] ->]; [cbn in Hlen; lia | done].
Qed.


(** The fetcher returns once every batch has its outcome. *)
Lemma get_channel_details_total channel_ids script :
  (length (batch_starts (length channel_ids)) ≤ length script)%nat →
  is_Some (get_channel_details py_int isoparse channel_ids script).
Proof. apply fetch_batches_total. Qed.


End BatchFacts.


(** ** Filter and rank: the sort *)

Lemma take_rows_fmap {A B : Type} (f : A → B) (a : list A) (indexer : list nat) :
  f <$> take_rows a indexer = take_rows (f <$> a) indexer.
Proof.
  unfold take_rows. induction indexer as [|i indexer IH]; [done|].
  cbn. rewrite list_lookup_fmap. destruct (a !! i); cbn; by rewrite IH.
Qed.

Lemma take_rows_reverse {A : Type} (a : list A) (indexer : list nat) :
  take_rows a (reverse indexer) = reverse (take_rows a indexer).
Proof.
  unfold take_rows. induction indexer as [|i indexer IH]; [done|].
  rewrite reverse_cons, omap_app, IH. cbn -[reverse].
  destruct (a !! i); cbn -[reverse]; [by rewrite reverse_cons | by rewrite app_nil_r].
Qed.

Lemma take_rows_shift {A : Type} (a : list A) : ∀ pre,
  take_rows (pre ++ a) (seq (length pre) (length a)) = a.
Proof.
  unfold take_rows. induction a as [|x a IH]; intros pre; [done|].
  cbn. rewrite list_lookup_middle by done. cbn. f_equal.
  specialize (IH (pre ++ [x])). rewrite length_app, <- (assoc_L (++)) in IH.
  cbn in IH. by rewrite Nat.add_1_r in IH.
Qed.

Lemma take_rows_all {A : Type} (a : list A) : take_rows a (seq 0 (length a)) = a.
Proof. apply (take_rows_shift a []). Qed.

(** An indexer that permutes the positions permutes the rows. *)
Lemma take_rows_Permutation {A : Type} (a : list A) (indexer : list nat) :
  indexer ≡ₚ seq 0 (length a) → take_rows a indexer ≡ₚ a.
Proof.
  intros H. unfold take_rows. rewrite H. fold (take_rows a (seq 0 (length a))).
  by rewrite take_rows_all.
Qed.

(** Position [j] of the reversed column is position [n - 1 - j] of the
    column. *)
Lemma take_rows_mirror_idx (n : nat) (s : list nat) :
  Forall (λ j, (j < n)%nat) s →
  take_rows (reverse (seq 0 n)) s = (λ j, n - S j)%nat <$> s.
Proof.
  unfold take_rows. induction 1 as [|j s Hj _ IH]; [done|].
  cbn. rewrite reverse_lookup, length_seq by (by rewrite length_seq).
  rewrite lookup_seq_lt by lia. cbn. by rewrite IH.
Qed.

Lemma take_rows_mirror (keys : list Z) (s : list nat) :
  Forall (λ j, (j < length keys)%nat) s →
  take_rows keys (take_rows (reverse (seq 0 (length keys))) s)
  = take_rows (reverse keys) s.
Proof.
  intros Hs. rewrite take_rows_mirror_idx by done.
  unfold take_rows. induction Hs as [|j s Hj _ IH]; [done|].
  cbn. rewrite (reverse_lookup keys j) by done. by rewrite IH.
Qed.

Lemma argsort_in_range (argsort : list Z → list nat) (keys : list Z) :
  argsort_contract argsort →
  Forall (λ j, (j < length keys)%nat) (argsort keys).
Proof.
  intros H. destruct (H keys) as [Hperm _]. apply Forall_forall. intros j Hj.
  rewrite Hperm in Hj. apply elem_of_seq in Hj. lia.
Qed.

Lemma nargsort_desc_Permutation (argsort : list Z → list nat) (keys : list Z) :
  argsort_contract argsort →
  nargsort_desc argsort keys ≡ₚ seq 0 (length keys).
Proof.
  intros H. unfold nargsort_desc. rewrite reverse_Permutation.
  rewrite (take_rows_Permutation (reverse (seq 0 (length keys)))).
  - apply reverse_Permutation.
  - rewrite length_reverse, length_seq.
    destruct (H (reverse keys)) as [Hperm _]. by rewrite length_reverse in Hperm.
Qed.

Lemma nargsort_desc_sorted (argsort : list Z → list nat) (keys : list Z) :
  argsort_contract argsort →
  Sorted (flip Z.le) (take_rows keys (nargsort_desc argsort keys)).
Proof.
  intros H. unfold nargsort_desc. rewrite take_rows_reverse.
  apply Sorted_reverse.
  pose proof (argsort_in_range argsort (reverse keys) H) as Hrange.
  rewrite length_reverse in Hrange.
  rewrite take_rows_mirror by done. apply H.
Qed.



(** *** The reference index sorts meet the contract *)

Lemma take_rows_nth (keys : list Z) (indexer : list nat) :
  Forall (λ j, (j < length keys)%nat) indexer →
  take_rows keys indexer = (λ i, nth i keys 0) <$> indexer.
Proof.
  unfold take_rows. induction 1 as [|j s Hj _ IH]; [done|].
  cbn. destruct (nth_lookup_or_length keys j 0) as [->|]; [|lia].
  cbn. by rewrite IH.
Qed.

Section InsertionArgsort.

Variable before : Z → Z → bool.
Hypothesis before_true : ∀ a b, before a b = true → a ≤ b.
Hypothesis before_false : ∀ a b, before a b = false → b ≤ a.
Variable keys : list Z.

Let key_le (i j : nat) : Prop := nth i keys 0 ≤ nth j keys 0.

Lemma insert_pos_Permutation i sorted :
  insert_pos before keys i sorted ≡ₚ i :: sorted.
Proof.
  induction sorted as [|j rest IH]; [done|].
  cbn. destruct (before _ _); [done|]. rewrite IH. apply Permutation_swap.
Qed.

Lemma insert_pos_Sorted i sorted :
  Sorted key_le sorted → Sorted key_le (insert_pos before keys i sorted).
Proof.
  induction 1 as [|j rest Hsorted IH Hhd]; [by repeat constructor|].
  cbn. destruct (before _ _) eqn:Hb.
  - repeat constructor; [done.. |]. by apply before_true.
  - constructor; [done|].
    destruct Hhd as [|k rest' Hjk]; cbn.
    + constructor. by apply before_false.
    + destruct (before _ (nth k keys 0)); constructor; [by apply before_false | done].
Qed.

Lemma insertion_Permutation (l : list nat) :
  foldr (insert_pos before keys) [] l ≡ₚ l.
Proof.
  induction l as [|i l IH]; [done|]. cbn. by rewrite insert_pos_Permutation, IH.
Qed.

Lemma insertion_Sorted (l : list nat) :
  Sorted key_le (foldr (insert_pos before keys) [] l).
Proof.
  induction l as [|i l IH]; [constructor|]. cbn. by apply insert_pos_Sorted.
Qed.

Lemma argsort_by_meets_contract :
  argsort_by before keys ≡ₚ seq 0 (length keys)
  ∧ Sorted Z.le (take_rows keys (argsort_by before keys)).
Proof.
  unfold argsort_by. split; [apply insertion_Permutation|].
  rewrite take_rows_nth.
  - eapply Sorted_fmap; [|apply insertion_Sorted]. done.
  - apply Forall_forall. intros j Hj. rewrite insertion_Permutation in Hj.
    apply elem_of_seq in Hj. lia.
Qed.

End InsertionArgsort.

Lemma argsort_stable_contract : argsort_contract argsort_stable.
Proof.
  intros keys. apply argsort_by_meets_contract.
  - intros a b H. by apply Z.leb_le.
  - intros a b H. apply Z.leb_gt in H. lia.
Qed.

Lemma StronglySorted_lookup {A : Type} (R : relation A) (l : list A) :
  StronglySorted R l →
  ∀ a b x y, (a < b)%nat → l !! a = Some x → l !! b = Some y → R x y.
Proof.
  induction 1 as [|z l Hs IH Hall]; intros a b x y Hab Ha Hb; [done|].
  destruct b as [|b]; [lia|]. cbn in Hb. destruct a as [|a].
  - injection Ha as <-. eapply Forall_forall in Hall; [exact Hall|].
    by eapply list_elem_of_lookup_2.
  - cbn in Ha. eapply IH; [|done..]. lia.
Qed.

Lemma insert_pos_stable keys i sorted :
  StronglySorted (key_then_position keys) sorted →
  Forall (λ j, (i < j)%nat) sorted →
  StronglySorted (key_then_position keys) (insert_pos Z.leb keys i sorted).
Proof.
  induction 1 as [|j rest Hs IH Hall]; intros Hlater; [by repeat constructor|].
  apply Forall_cons in Hlater as [Hij Hlater].
  cbn. destruct (_ <=? _) eqn:Hb.
  - apply Z.leb_le in Hb.
    assert (Hfirst : key_then_position keys i j) by (unfold key_then_position; lia).
    constructor; [by constructor|]. constructor; [done|].
    eapply Forall_impl; [exact Hall|]. intros k Hjk.
    unfold key_then_position in *. lia.
  - apply Z.leb_gt in Hb. constructor; [by apply IH|].
    rewrite insert_pos_Permutation. constructor; [|done].
    unfold key_then_position. lia.
Qed.

Lemma insertion_stable keys (n : nat) : ∀ s,
  StronglySorted (key_then_position keys) (foldr (insert_pos Z.leb keys) [] (seq s n))
  ∧ Forall (λ j, (s ≤ j)%nat) (foldr (insert_pos Z.leb keys) [] (seq s n)).
Proof.
  induction n as [|n IH]; intros s; [by split; constructor|].
  cbn. destruct (IH (S s)) as [Hs Hge]. split.
  - apply insert_pos_stable; [done|]. eapply Forall_impl; [exact Hge|]. cbn. lia.
  - rewrite insert_pos_Permutation. constructor; [lia|].
    eapply Forall_impl; [exact Hge|]. cbn. lia.
Qed.

Lemma argsort_stable_is_stable : stable_argsort argsort_stable.
Proof.
  intros keys a b i j Hab Ha Hb Hkeys.
  destruct (insertion_stable keys (length keys) 0%nat) as [Hs _].
  pose proof (StronglySorted_lookup _ _ Hs a b i j Hab Ha Hb) as Hij.
  unfold key_then_position in Hij. rewrite !nth_lookup, Hkeys in Hij. lia.
Qed.

(** *** The default index sort on tied rows *)

(** A range of at most seventeen positions goes straight to the insertion
    sort: two rows with equal subscriber counts stay in fetch order. *)
Example quicksort_keeps_two_tied_rows :
  let first := add_display_columns show_micros tie_first in
  let second := add_display_columns show_micros tie_second in
  sort_values_desc argsort_quicksort [first; second] = [first; second].
Proof. reflexivity. Qed.



(** ** Presentation: the subscriber column *)

(** C4. The displayed table, row by row, shows a rearrangement [shown] of
    the records it is given: each row is the row of its record (name and
    link), and its subscriber cell is the literal marker when that record is
    flagged hidden, whatever count the record stores, and otherwise the
    record's count written with thousands separators. Every record shown is
    one of the input, and with an index sort that meets its contract every
    input record is shown, as often as it occurs. The marker itself is not a
    number written with separators. *)
Theorem hidden_rows_show_marker (strftime : datetime → string)
    (argsort : list Z → list nat) (new_channels_df : list ChannelRecord) :
  (∃ shown : list ChannelRecord,
     Forall2 shows_subscribers_of shown
       (display_table strftime argsort new_channels_df)
     ∧ (∀ r, r ∈ shown → r ∈ new_channels_df)
     ∧ (argsort_contract argsort → shown ≡ₚ new_channels_df))
  ∧ ∀ n, ¬ with_thousands_separators n "非公開".
Proof.
  split.
  - exists (take_rows new_channels_df
              (nargsort_desc argsort
                 (sort_key <$> (add_display_columns strftime <$> new_channels_df)))).
    split_and!.
    + unfold display_table, display_df, sort_values_desc.
      rewrite <- take_rows_fmap.
      apply Forall2_fmap_r, Forall2_fmap_r, Forall_Forall2_diag, Forall_forall.
      intros r _. unfold shows_subscribers_of.
      cbv [select_columns add_display_columns subscribers_cell rr_record
           channel_link col_subscribers d_channel_name d_channel_link
           d_subscribers].
      split_and!; [reflexivity | reflexivity |].
      destruct (hidden_subscriber_count r); cbn [negb].
      * reflexivity.
      * apply format_thousands_separators.
    + intros r Hr. by eapply elem_of_take_rows.
    + intros Hc. apply take_rows_Permutation.
      rewrite <- (length_fmap (add_display_columns strftime)),
        <- (length_fmap sort_key).
      by apply nargsort_desc_Permutation.
  - intros n (Hstrip & _). revert Hstrip.
    change (strip_commas "非公開") with "非公開"%string.
    destruct n as [|p|p]; cbn [Z.to_int NilZero.string_of_int NilZero.string_of_uint].
    + discriminate.
    + destruct (Pos.to_uint p); discriminate.
    + destruct (Pos.to_uint p); discriminate.
Qed.

Lemma hidden_rows_show_marker_witness :
  d_subscribers <$> display_table show_micros argsort_stable [record_hidden; record_public]
  = ["1,234,567"; "非公開"]%string
  ∧ ∃ shown : list ChannelRecord,
      Forall2 shows_subscribers_of shown
        (display_table show_micros argsort_stable [record_hidden; record_public])
      ∧ shown ≡ₚ [record_hidden; record_public].
Proof.
  split; [reflexivity|].
  destruct (hidden_rows_show_marker show_micros argsort_stable
              [record_hidden; record_public]) as [(shown & Hrows & _ & Hperm) _].
  exists shown. split; [exact Hrows | exact (Hperm argsort_stable_contract)].
Defined.

(** ** The scenarios of the specification, run on the model *)

(** A 30-day window over channels created 10, 60 and 5 days ago with 1000,
    5000 and 50 subscribers: the second is dropped, the first precedes the
    third. *)
Example scenario_filter_and_rank :
  channel_id <$> new_channels (days_ago 30) [scenario_A; scenario_B; scenario_C]
  = [Some "A"; Some "C"]%string
  ∧ d_channel_name
      <$> display_table show_micros argsort_stable
            (new_channels (days_ago 30) [scenario_C; scenario_B; scenario_A])
    = [Some "A"; Some "C"]%string.
Proof. split; reflexivity. Qed.

(** A whole run with a key: one build, two searches, one channel batch;
    the old channel is filtered out and the hidden count shows the marker. *)
Example scenario_whole_run :
  ∃ out,
    main parse_decimal isoparse_micros show_micros show_micros argsort_stable
      "key" 100 30 sample_today sample_environment = Some out
    ∧ out_msgs out = [Searching 30; FoundChannels 3; FetchingBatch 1 3 3; SurveyDone 2]
    ∧ length (out_io out) = 4%nat
    ∧ (d_subscribers <$> default [] (out_table out)) = ["1,200"%string; hidden_marker]
    ∧ out_download out = out_table out.
Proof. eexists. split; [vm_compute; reflexivity|]. vm_compute. done. Qed.

(** An empty finder result: nothing is shown and nothing is offered for
    download. *)
Example scenario_empty_finder :
  ∃ out,
    main parse_decimal isoparse_micros show_micros show_micros argsort_stable
      "key" 100 30 sample_today
      {| env_build := Returned Youtube; env_button := true;
         env_search := [Returned {| resp_items := []; resp_nextPageToken := None |}];
         env_channels := [] |} = Some out
    ∧ out_table out = None ∧ out_download out = None
    ∧ NoChannelsToCheck ∈ out_msgs out.
Proof.
  eexists. split; [vm_compute; reflexivity|]. cbn. split_and!; [done..|].
  apply list_elem_of_In. cbn. tauto.
Qed.


(** * Further properties of the code *)

(** ** API client wrapper *)

(** X1. The wrapper hands out a handle exactly when the key is not empty
    and the client library built one, then without any message. When it
    hands out none it says why, with warnings or errors only. It calls the
    library at most once, and only with the key it was given. *)
Theorem wrapper_handle_iff_built (key : string) (build : result handle) :
  let out := get_youtube_service key build in
  (is_Some out.1.1 ↔ key ≠ ""%string ∧ ∃ youtube, build = Returned youtube)
  ∧ (is_Some out.1.1 → out.1.2 = [])
  ∧ (out.1.1 = None →
       out.1.2 ≠ []
       ∧ Forall (λ m, msg_level m = LWarning ∨ msg_level m = LError) out.1.2)
  ∧ (out.2 = [] ∨ out.2 = [IoBuild key]).
Proof.
  unfold get_youtube_service.
  destruct key as [|c key]; [|destruct build as [y|e]; [|destruct (is_http_error e)]];
    cbn; split_and!.
  all: try (by left); try (by right).
  all: try (split; [intros H | intros [Hk [y' Hy]]]).
  all: try (intros H; split; [done | repeat constructor; by (left + right)]).
  all: try done.
  all: try (by destruct H).
  all: try (split; [done | by eexists]).
Qed.

(** ** Popular-video finder *)

(** X2. With a quota that is not positive the finder makes no call and
    returns the empty list, reporting zero channels. *)
Theorem search_without_quota (pa : string) (max_results : Z)
    (script : list (result search_response)) :
  max_results ≤ 0 →
  search_popular_videos pa max_results script
  = Some ([], [Searching NEW_CHANNEL_DAYS_THRESHOLD; FoundChannels 0], []).
Proof.
  intros Hmax. unfold search_popular_videos.
  rewrite search_loop_done by (apply Z.ltb_ge; unfold finder_init; cbn; lia).
  unfold finder_init. cbn [channel_ids]. by rewrite elements_empty, size_empty.
Qed.

Lemma search_without_quota_witness :
  search_popular_videos sample_cutoff 0 sample_pages
  = Some ([], [Searching 30; FoundChannels 0], []).
Proof. apply search_without_quota. lia. Defined.

Lemma search_loop_request_shape pa max_results script : ∀ st st' ex reqs,
  search_loop pa max_results script st = Some (st', ex, reqs) →
  Forall (λ req, sr_publishedAfter req = pa
                 ∧ 1 ≤ sr_maxResults req ≤ MAX_VIDEO_RESULTS_PER_PAGE) reqs
  ∧ sr_pageToken <$> reqs
    = take (length reqs) (next_page_token st :: (page_token <$> script)).
Proof.
  induction script as [|r script' IH]; intros st st' ex reqs Hloop;
    destruct (results_fetched st <? max_results) eqn:Hlt;
    try (rewrite search_loop_done in Hloop by done; by injection Hloop as <- <- <-).
  - cbn in Hloop. by rewrite Hlt in Hloop.
  - cbn [search_loop] in Hloop. rewrite Hlt in Hloop. apply Z.ltb_lt in Hlt.
    assert (Hone : ∀ req0 : search_request,
      sr_publishedAfter req0 = pa →
      sr_maxResults req0
      = Z.min MAX_VIDEO_RESULTS_PER_PAGE (max_results - results_fetched st) →
      sr_publishedAfter req0 = pa
      ∧ 1 ≤ sr_maxResults req0 ≤ MAX_VIDEO_RESULTS_PER_PAGE).
    { intros req0 Hpa ->. unfold MAX_VIDEO_RESULTS_PER_PAGE. split; [done | lia]. }
    destruct r as [p|e].
    2:{ injection Hloop as <- <- <-. split; [|done]. constructor; [by apply Hone | done]. }
    destruct (scan_items max_results (resp_items p) st) as [st1 [e|]] eqn:Hscan.
    { injection Hloop as <- <- <-. split; [|done]. constructor; [by apply Hone | done]. }
    destruct (_ || _) eqn:Hstop.
    { injection Hloop as <- <- <-. split; [|done]. constructor; [by apply Hone | done]. }
    destruct (search_loop _ _ script' _) as [[[st3 e3] reqs3]|] eqn:Hrec; [|done].
    injection Hloop as <- <- <-.
    apply IH in Hrec as [Hshape Htok]. split.
    + constructor; [by apply Hone | done].
    + cbn. f_equal. exact Htok.
Qed.

Lemma search_loop_later_tokens pa max_results script : ∀ st0 st ex reqs k req,
  search_loop pa max_results script st0 = Some (st, ex, reqs) →
  reqs !! S k = Some req → truthy (sr_pageToken req) = true.
Proof.
  induction script as [|r script' IH]; intros st0 st ex reqs k req Hloop Hk;
    destruct (results_fetched st0 <? max_results) eqn:Hlt;
    try (rewrite search_loop_done in Hloop by done; by injection Hloop as <- <- <-).
  - cbn in Hloop. by rewrite Hlt in Hloop.
  - cbn [search_loop] in Hloop. rewrite Hlt in Hloop.
    destruct r as [p|e]; [|by injection Hloop as <- <- <-].
    destruct (scan_items max_results (resp_items p) st0) as [st1 [e|]] eqn:Hscan;
      [by injection Hloop as <- <- <-|].
    destruct (_ || _) eqn:Hstop; [by injection Hloop as <- <- <-|].
    destruct (search_loop _ _ script' _) as [[[st3 e3] reqs3]|] eqn:Hrec; [|done].
    injection Hloop as <- <- <-. cbn in Hk.
    destruct k as [|k]; [|by eapply IH].
    apply orb_false_iff in Hstop as [Htruthy _]. apply negb_false_iff in Htruthy.
    destruct (search_loop_request_shape _ _ _ _ _ _ _ Hrec) as [_ Htok].
    destruct reqs3 as [|req3 reqs3]; [done|]. injection Hk as ->.
    cbn in Htok. injection Htok as -> _. exact Htruthy.
Qed.

(** X3. Every search request carries the cutoff it was given and asks for
    at least 1 and at most 50 results; the first request has no page token
    and each later one carries the token of the page before it, which is not
    empty. *)
Theorem search_requests_are_chained (pa : string) (max_results : Z)
    (script : list (result search_response))
    (st : finder_state) (ex : option exn) (reqs : list search_request) :
  search_loop pa max_results script finder_init = Some (st, ex, reqs) →
  Forall (λ req, sr_publishedAfter req = pa
                 ∧ 1 ≤ sr_maxResults req ≤ MAX_VIDEO_RESULTS_PER_PAGE) reqs
  ∧ sr_pageToken <$> reqs = take (length reqs) (None :: (page_token <$> script))
  ∧ (∀ k req, reqs !! S k = Some req → truthy (sr_pageToken req) = true).
Proof.
  intros Hloop.
  destruct (search_loop_request_shape _ _ _ _ _ _ _ Hloop) as [Hshape Htok].
  split_and!; [done | done |].
  intros k req Hk. by eapply search_loop_later_tokens.
Qed.

Lemma search_requests_are_chained_witness :
  ∃ st reqs,
    search_loop sample_cutoff 10 sample_pages finder_init = Some (st, None, reqs)
    ∧ sr_pageToken <$> reqs = [None; Some "t2"%string].
Proof.
  destruct (search_loop sample_cutoff 10 sample_pages finder_init)
    as [[[st ex] reqs]|] eqn:Hloop; [|by vm_compute in Hloop].
  destruct (search_requests_are_chained _ _ _ _ _ _ Hloop) as (_ & Htok & _).
  vm_compute in Hloop. injection Hloop as <- <- <-.
  eexists _, _. split; [reflexivity | exact Htok].
Defined.

Lemma scan_items_progress max_results items st st1 :
  items ≠ [] →
  results_fetched st < max_results →
  scan_items max_results items st = (st1, None) →
  results_fetched st < results_fetched st1.
Proof.
  destruct items as [|item rest]; [done|]. intros _ Hlt. cbn [scan_items].
  destruct (si_videoId item) as [v|]; [|done].
  destruct (si_channelId item) as [c|]; [|done].
  cbn [video_ids channel_ids next_page_token results_fetched].
  destruct (max_results <=? results_fetched st + 1) eqn:Hfull.
  - intros [= <-]. cbn. lia.
  - apply Z.leb_gt in Hfull. intros Hscan.
    apply scan_items_counts in Hscan as ([H1 _] & _); [|cbn; lia]. cbn in H1. lia.
Qed.

Lemma search_loop_bounded pa max_results script : ∀ st,
  Forall makes_progress script →
  (Z.to_nat (max_results - results_fetched st) ≤ length script)%nat →
  ∃ st' ex reqs,
    search_loop pa max_results script st = Some (st', ex, reqs)
    ∧ (length reqs ≤ Z.to_nat (max_results - results_fetched st))%nat.
Proof.
  induction script as [|r script' IH]; intros st Hprog Hlen;
    destruct (results_fetched st <? max_results) eqn:Hlt;
    try (rewrite search_loop_done by done; eexists _, _, _; split; [done | cbn; lia]).
  - apply Z.ltb_lt in Hlt. cbn in Hlen. lia.
  - cbn [search_loop]. rewrite Hlt. apply Z.ltb_lt in Hlt.
    apply Forall_cons in Hprog as [Hr Hprog].
    destruct r as [p|e].
    2:{ eexists _, _, _. split; [done | cbn; lia]. }
    destruct (scan_items max_results (resp_items p) st) as [st1 [e|]] eqn:Hscan.
    { eexists _, _, _. split; [done | cbn; lia]. }
    destruct (_ || _) eqn:Hstop.
    { eexists _, _, _. split; [done | cbn; lia]. }
    apply orb_false_iff in Hstop as [Htruthy _]. cbn in Htruthy.
    destruct Hr as [Hends | Hitems]; [cbn in Hends; congruence|].
    cbn in Hitems. apply scan_items_progress in Hscan; [|done..].
    destruct (IH (set_token (resp_nextPageToken p) st1) Hprog) as (st' & ex & reqs & -> & Hreqs).
    { cbn in *. lia. }
    eexists _, _, _. split; [done|]. cbn in *. lia.
Qed.

(** X4. When every call outcome either ends the search or hands over at
    least one item, the finder returns after at most [max_results] calls. *)
Theorem search_returns_within_quota (pa : string) (max_results : Z)
    (script : list (result search_response)) :
  Forall makes_progress script →
  (Z.to_nat max_results ≤ length script)%nat →
  ∃ ids ms io,
    search_popular_videos pa max_results script = Some (ids, ms, io)
    ∧ (length io ≤ Z.to_nat max_results)%nat.
Proof.
  intros Hprog Hlen.
  destruct (search_loop_bounded pa max_results script finder_init Hprog)
    as (st & ex & reqs & Hloop & Hreqs); [cbn; by rewrite Z.sub_0_r|].
  cbn in Hreqs. rewrite Z.sub_0_r in Hreqs.
  unfold search_popular_videos. rewrite Hloop.
  destruct ex; eexists _, _, _; (split; [done | by rewrite length_fmap]).
Qed.

Lemma search_returns_within_quota_witness :
  ∃ ids ms io,
    search_popular_videos sample_cutoff 2 sample_pages = Some (ids, ms, io)
    ∧ (length io ≤ 2)%nat.
Proof.
  apply (search_returns_within_quota sample_cutoff 2 sample_pages).
  - unfold sample_pages. apply Forall_cons. split; [by right|].
    apply Forall_cons. split; [by left | apply Forall_nil_2].
  - cbn. lia.
Defined.

Lemma search_loop_starves pa max_results script : ∀ st,
  results_fetched st < max_results →
  Forall empty_page_with_token script →
  search_loop pa max_results script st = None.
Proof.
  induction script as [|r script' IH]; intros st Hlt Hempty.
  - cbn. by apply Z.ltb_lt in Hlt as ->.
  - apply Forall_cons in Hempty as [(p & -> & Hitems & Htok) Hempty].
    cbn [search_loop]. pose proof Hlt as Hlt'. apply Z.ltb_lt in Hlt' as ->.
    rewrite Hitems. cbn [scan_items set_token next_page_token results_fetched].
    rewrite Htok. apply Z.leb_gt in Hlt as Hle. rewrite Hle. cbn [negb orb].
    by rewrite IH.
Qed.

(** X5. With a positive quota, pages that hold no item but carry a
    continuation token never let the finder return: however many of them
    the service sends, the loop asks for one more. *)
Theorem search_starves_on_empty_pages (pa : string) (max_results : Z)
    (script : list (result search_response)) :
  0 < max_results →
  Forall empty_page_with_token script →
  search_popular_videos pa max_results script = None.
Proof.
  intros Hmax Hempty. unfold search_popular_videos.
  by rewrite search_loop_starves.
Qed.

Lemma search_starves_on_empty_pages_witness :
  search_popular_videos sample_cutoff 50 (replicate 3 sample_empty_page) = None.
Proof.
  apply search_starves_on_empty_pages; [lia|].
  apply Forall_replicate. by eexists.
Defined.

(** ** Channel detail fetcher *)

Lemma concat_batches_take (ids : list string) (m : nat) :
  concat (batch_at ids <$> ((λ k, k * MAX_CHANNELS_TO_FETCH_PER_CALL)%nat <$> seq 0 m))
  = take (m * MAX_CHANNELS_TO_FETCH_PER_CALL) ids.
Proof.
  induction m as [|m IH]; [done|].
  rewrite seq_S, !fmap_app, concat_app, IH. cbn. rewrite app_nil_r.
  unfold batch_at. rewrite take_take_drop. f_equal. lia.
Qed.

Lemma batch_arith (n : nat) :
  let q := ((n + (MAX_CHANNELS_TO_FETCH_PER_CALL - 1)) / MAX_CHANNELS_TO_FETCH_PER_CALL)%nat in
  (n ≤ q * MAX_CHANNELS_TO_FETCH_PER_CALL)%nat
  ∧ ∀ k, (k < q → k * MAX_CHANNELS_TO_FETCH_PER_CALL < n)%nat.
Proof.
  unfold MAX_CHANNELS_TO_FETCH_PER_CALL. cbn zeta.
  pose proof (Nat.div_mod_eq (n + (50 - 1)) 50) as Hdiv.
  pose proof (Nat.mod_upper_bound (n + (50 - 1)) 50 ltac:(lia)) as Hmod.
  split; [lia|]. intros k Hk. nia.
Qed.

Section FetcherFurther.

Variable py_int : string → option Z.
Variable isoparse : string → option datetime.

(** X6. The fetcher sends every channel id exactly once: the id lists of
    its requests, put end to end, are the input list; each request carries
    between 1 and 50 ids, and there are as many requests as the input needs
    batches of 50 (none for an empty input). *)
Theorem batches_partition_ids (channel_ids : list string)
    (script : list (result channels_response))
    (rs : list ChannelRecord) (ms : list msg) (io : list io_event) :
  get_channel_details py_int isoparse channel_ids script = Some (rs, ms, io) →
  ∃ batches,
    io = IoChannels <$> batches
    ∧ concat batches = channel_ids
    ∧ Forall (λ b, (1 ≤ length b ≤ MAX_CHANNELS_TO_FETCH_PER_CALL)%nat) batches
    ∧ length batches
      = ((length channel_ids + (MAX_CHANNELS_TO_FETCH_PER_CALL - 1))
         / MAX_CHANNELS_TO_FETCH_PER_CALL)%nat.
Proof.
  intros Hrun. unfold get_channel_details in Hrun.
  apply fetch_batches_spec in Hrun as (_ & -> & _ & _).
  exists (batch_at channel_ids <$> batch_starts (length channel_ids)).
  destruct (batch_arith (length channel_ids)) as [Hcover Hin]. cbn zeta in *.
  split_and!.
  - by rewrite <- list_fmap_compose.
  - unfold batch_starts, range0. rewrite concat_batches_take. by apply take_ge.
  - unfold batch_starts, range0. apply Forall_fmap, Forall_fmap, Forall_forall.
    intros k Hk%elem_of_seq. cbn. unfold batch_at.
    rewrite length_take, length_drop. specialize (Hin k ltac:(lia)).
    unfold MAX_CHANNELS_TO_FETCH_PER_CALL in *. lia.
  - unfold batch_starts, range0. by rewrite !length_fmap, length_seq.
Qed.

Lemma decode_items_app (pre post : list channel_item) :
  decode_items py_int isoparse (pre ++ post)
  = match decode_items py_int isoparse pre with
    | (rs, ws, Some e) => (rs, ws, Some e)
    | (rs, ws, None) =>
        let '(rs', ws', e') := decode_items py_int isoparse post in
        (rs ++ rs', ws ++ ws', e')
    end.
Proof.
  induction pre as [|item pre IH]; cbn [decode_items app].
  - by destruct (decode_items _ _ post) as [[rs' ws'] e'].
  - destruct (decode_item _ _ item); [| |done]; rewrite IH;
      destruct (decode_items _ _ pre) as [[rs ws] [e|]]; try done;
      by destruct (decode_items _ _ post) as [[rs' ws'] e'].
Qed.

(** X7. A creation time that does not parse costs that one item only: it is
    skipped with a warning that quotes the raw string and the channel id,
    and the records and the outcome of the batch are those of the batch
    without the item. *)
Theorem unparsable_date_skips_one_item (item : channel_item) (raw : string) :
  sn_publishedAt (default empty_snippet (ci_snippet item)) = Some raw →
  raw ≠ ""%string →
  isoparse raw = None →
  decode_item py_int isoparse item = Skipped (DateParseWarning raw (ci_id item))
  ∧ ∀ pre post,
      (decode_items py_int isoparse (pre ++ item :: post)).1.1
      = (decode_items py_int isoparse (pre ++ post)).1.1
      ∧ (decode_items py_int isoparse (pre ++ item :: post)).2
        = (decode_items py_int isoparse (pre ++ post)).2
      ∧ ((decode_items py_int isoparse pre).2 = None →
           DateParseWarning raw (ci_id item)
           ∈ (decode_items py_int isoparse (pre ++ item :: post)).1.2).
Proof.
  intros Hraw Hne Hparse.
  assert (Hdec : decode_item py_int isoparse item
                 = Skipped (DateParseWarning raw (ci_id item))).
  { unfold decode_item. cbv zeta. rewrite Hraw. destruct raw; [done|].
    cbn [truthy py_str]. by rewrite Hparse. }
  split; [done|]. intros pre post.
  rewrite !decode_items_app. cbn [decode_items]. rewrite Hdec.
  destruct (decode_items _ _ pre) as [[rs ws] [e|]]; [done|].
  destruct (decode_items _ _ post) as [[rs' ws'] e']. cbn.
  split_and!; [done | done |]. intros _. set_solver.
Qed.

Lemma decode_item_raises (item : channel_item) (e : exn) :
  decode_item py_int isoparse item = ItemRaised e →
  ∃ s, e = ValueError s ∧ py_int s = None.
Proof.
  assert (Hint : ∀ s z, int_of py_int s = Raised z → ∃ s', z = ValueError s' ∧ py_int s' = None).
  { intros s z. unfold int_of. destruct (py_int s) eqn:Hs; [done|]. intros [= <-]. eauto. }
  assert (Hbuild : ∀ sn stats pstr pdt,
            build_record py_int item sn stats pstr pdt = ItemRaised e →
            ∃ s, e = ValueError s ∧ py_int s = None).
  { intros sn stats pstr pdt. unfold build_record, int_default0.
    destruct (truthy (st_subscriberCount stats)).
    - destruct (int_of _ _) eqn:H1; [|intros [= <-]; by eapply Hint].
      destruct (st_viewCount stats) as [v|];
        [destruct (int_of _ v) eqn:H2; [|intros [= <-]; by eapply Hint]|];
        (destruct (st_videoCount stats) as [w|];
          [destruct (int_of _ w) eqn:H3; [|intros [= <-]; by eapply Hint]|]); done.
    - destruct (st_viewCount stats) as [v|];
        [destruct (int_of _ v) eqn:H2; [|intros [= <-]; by eapply Hint]|];
        (destruct (st_videoCount stats) as [w|];
          [destruct (int_of _ w) eqn:H3; [|intros [= <-]; by eapply Hint]|]); done. }
  unfold decode_item. cbv zeta. destruct (truthy _); [|apply Hbuild].
  destruct (isoparse _); [apply Hbuild | done].
Qed.

(** X8. A count that does not parse ends its batch where it stands: the
    records of the items before it are kept, the items after it are not
    looked at, and one unexpected-error message, carrying the offending
    string, closes the batch's messages. *)
Theorem malformed_count_ends_batch (channel_ids : list string) (i : nat)
    (pre post : list channel_item) (item : channel_item) (e : exn) :
  decode_item py_int isoparse item = ItemRaised e →
  (decode_items py_int isoparse pre).2 = None →
  (∃ s, e = ValueError s ∧ py_int s = None)
  ∧ fetch_batch py_int isoparse channel_ids i
      (Returned {| cr_items := pre ++ item :: post |})
    = ((decode_items py_int isoparse pre).1.1,
       FetchingBatch (i + 1)
         ((i + length (batch_at channel_ids i)) `min` length channel_ids)
         (length channel_ids)
       :: (decode_items py_int isoparse pre).1.2 ++ [ChannelsUnexpected e]).
Proof.
  intros Hdec Hpre. pose proof (decode_item_raises _ _ Hdec) as Hval.
  split; [done|]. unfold fetch_batch. cbn [cr_items].
  rewrite decode_items_app. cbn [decode_items]. rewrite Hdec.
  destruct (decode_items _ _ pre) as [[rs ws] ex]. cbn in Hpre. subst ex.
  cbn. rewrite !app_nil_r. destruct Hval as (s & -> & _). done.
Qed.

Lemma decode_items_provenance (items : list channel_item) (r : ChannelRecord) :
  r ∈ (decode_items py_int isoparse items).1.1 →
  ∃ item, item ∈ items ∧ decode_item py_int isoparse item = Appended r.
Proof.
  induction items as [|item items IH]; cbn [decode_items]; [by intros ?%elem_of_nil|].
  destruct (decode_item _ _ item) as [r0|w|e] eqn:Hdec.
  - destruct (decode_items _ _ items) as [[rs ws] ex]. cbn in *.
    intros [->|Hin]%elem_of_cons.
    + exists item. split; [left | done].
    + destruct (IH Hin) as (it & Hit & Hd). exists it. split; [by right | done].
  - destruct (decode_items _ _ items) as [[rs ws] ex]. cbn in *. intros Hin.
    destruct (IH Hin) as (it & Hit & Hd). exists it. split; [by right | done].
  - cbn. by intros ?%elem_of_nil.
Qed.

Lemma decode_item_date (item : channel_item) (r : ChannelRecord) :
  decode_item py_int isoparse item = Appended r →
  channel_id r = ci_id item
  ∧ match published_at r with
    | Some dt => ∃ raw, published_at_str r = Some raw ∧ isoparse raw = Some dt
    | None => truthy (published_at_str r) = false
    end.
Proof.
  assert (Hid : ∀ sn stats pstr pdt,
            build_record py_int item sn stats pstr pdt = Appended r →
            channel_id r = ci_id item).
  { intros sn stats pstr pdt. unfold build_record.
    destruct (if truthy _ then _ else _); [|done].
    destruct (int_default0 _ _); [|done]. destruct (int_default0 _ _); [|done].
    by intros [= <-]. }
  unfold decode_item. cbv zeta.
  destruct (truthy (sn_publishedAt _)) eqn:Htruthy.
  - destruct (isoparse _) as [dt|] eqn:Hparse; [|done]. intros H.
    split; [by eapply Hid|].
    apply build_record_Appended in H as (-> & -> & _).
    destruct (sn_publishedAt _) as [raw|]; [|done]. eauto.
  - intros H. split; [by eapply Hid|].
    apply build_record_Appended in H as (-> & -> & _). done.
Qed.

(** X9. The fetcher invents no record: each record it returns was decoded
    from an item of a response that some batch received, keeps that item's
    id, and its creation time is the parse of the creation string it
    stores (or is missing when the string is absent or empty). *)
Theorem fetched_records_come_from_items (channel_ids : list string)
    (script : list (result channels_response))
    (rs : list ChannelRecord) (ms : list msg) (io : list io_event) (r : ChannelRecord) :
  get_channel_details py_int isoparse channel_ids script = Some (rs, ms, io) →
  r ∈ rs →
  ∃ k resp item,
    script !! k = Some (Returned resp)
    ∧ (k < length io)%nat
    ∧ item ∈ cr_items resp
    ∧ decode_item py_int isoparse item = Appended r
    ∧ channel_id r = ci_id item
    ∧ match published_at r with
      | Some dt => ∃ raw, published_at_str r = Some raw ∧ isoparse raw = Some dt
      | None => truthy (published_at_str r) = false
      end.
Proof.
  intros Hrun Hr. unfold get_channel_details in Hrun.
  apply fetch_batches_spec in Hrun as (-> & -> & _ & _).
  apply list_elem_of_In, in_concat in Hr as (l & Hl & Hrl).
  apply list_elem_of_In in Hl, Hrl.
  apply list_elem_of_fmap in Hl as (outcome & -> & Hout).
  apply list_elem_of_lookup in Hout as (k & Hk).
  apply lookup_take_Some in Hk as [Hk Hlt].
  destruct outcome as [resp|e]; [|by apply elem_of_nil in Hrl].
  cbn in Hrl. apply decode_items_provenance in Hrl as (item & Hitem & Hdec).
  exists k, resp, item. rewrite length_fmap.
  destruct (decode_item_date _ _ Hdec) as [Hid Hdate]. done.
Qed.

End FetcherFurther.

(** ** Filter and rank *)

Lemma list_filter_sublist {A : Type} (f : A → bool) (l : list A) :
  List.filter f l `sublist_of` l.
Proof.
  induction l as [|x l IH]; cbn; [constructor|].
  destruct (f x); by constructor.
Qed.

(** X10. The filter keeps the surviving records in their input order and
    adds none; filtering what was already filtered changes nothing, and a
    later cutoff applied to an earlier cutoff's result gives what the later
    cutoff gives on the input. *)
Theorem filter_keeps_order_and_narrows (C C' : datetime) (df : list ChannelRecord) :
  new_channels C df `sublist_of` df
  ∧ new_channels C (new_channels C df) = new_channels C df
  ∧ (C ≤ C' → new_channels C' (new_channels C df) = new_channels C' df).
Proof.
  assert (Hnarrow : ∀ D, C ≤ D → new_channels D (new_channels C df) = new_channels D df).
  { intros D HD. unfold new_channels, dropna, is_new.
    induction df as [|r df IH]; [done|]. cbn.
    destruct (published_at r) as [t|] eqn:Ht; cbn; [|done]. rewrite Ht.
    destruct (C <=? t) eqn:HCt; cbn.
    - rewrite Ht. cbn. rewrite Ht. destruct (D <=? t); by rewrite IH.
    - rewrite IH. apply Z.leb_gt in HCt.
      destruct (D <=? t) eqn:HDt; [apply Z.leb_le in HDt; lia | done]. }
  split_and!; [| by apply Hnarrow | apply Hnarrow].
  unfold new_channels, dropna.
  etrans; apply list_filter_sublist.
Qed.

(** ** Presentation *)

Section PresentationFurther.

Variable strftime : datetime → string.
Variable argsort : list Z → list nat.

Lemma display_df_Permutation (new_channels_df : list ChannelRecord) :
  argsort_contract argsort →
  display_df strftime argsort new_channels_df
  ≡ₚ add_display_columns strftime <$> new_channels_df.
Proof.
  intros Hc. unfold display_df, sort_values_desc. apply take_rows_Permutation.
  rewrite <- (length_fmap sort_key). by apply nargsort_desc_Permutation.
Qed.

Lemma display_table_length (new_channels_df : list ChannelRecord) :
  argsort_contract argsort →
  length (display_table strftime argsort new_channels_df) = length new_channels_df.
Proof.
  intros Hc. unfold display_table.
  by rewrite length_fmap, display_df_Permutation, length_fmap.
Qed.

(** X11. Given an index sort that meets its contract, the displayed table
    shows every new channel exactly once: it is a rearrangement of the rows
    computed for the new channels, has as many rows as there are new
    channels, and no row has more subscribers than the first one. *)
Theorem display_shows_each_channel_once (new_channels_df : list ChannelRecord) :
  argsort_contract argsort →
  display_table strftime argsort new_channels_df
  ≡ₚ select_columns <$> (add_display_columns strftime <$> new_channels_df)
  ∧ length (display_table strftime argsort new_channels_df) = length new_channels_df
  ∧ ∀ first rest,
      display_df strftime argsort new_channels_df = first :: rest →
      Forall (λ row, sort_key row ≤ sort_key first) rest.
Proof.
  intros Hc. split_and!.
  - unfold display_table. by rewrite display_df_Permutation.
  - by apply display_table_length.
  - intros first rest Heq.
    pose proof (nargsort_desc_sorted argsort
                  (sort_key <$> (add_display_columns strftime <$> new_channels_df)) Hc)
      as Hsorted.
    rewrite <- take_rows_fmap in Hsorted.
    fold (sort_values_desc argsort (add_display_columns strftime <$> new_channels_df))
      in Hsorted.
    fold (display_df strftime argsort new_channels_df) in Hsorted.
    rewrite Heq in Hsorted. cbn in Hsorted.
    apply Sorted_StronglySorted in Hsorted; [|intros x y z; unfold flip; lia].
    apply StronglySorted_inv in Hsorted as [_ Hall].
    rewrite Forall_fmap in Hall. eapply Forall_impl; [exact Hall|]. done.
Qed.

(** X12. Every row displayed for the filtered channels belongs to an input
    record created at or after the cutoff, so its opening date is never
    missing; its link is the channel URL prefix followed by the id, and its
    view and video cells read back as the stored counts. *)
Theorem displayed_rows_are_complete (C : datetime) (df : list ChannelRecord)
    (row : ResultRow) :
  row ∈ display_df strftime argsort (new_channels C df) →
  rr_record row ∈ df
  ∧ (∃ T, published_at (rr_record row) = Some T ∧ C ≤ T
          ∧ col_opened row = Some (strftime T))
  ∧ channel_link row
    = ("https://www.youtube.com/channel/" +:+ py_str (channel_id (rr_record row)))%string
  ∧ parse_decimal (strip_commas (col_total_views row)) = Some (view_count (rr_record row))
  ∧ parse_decimal (strip_commas (col_videos row)) = Some (video_count (rr_record row)).
Proof.
  unfold display_df, sort_values_desc. intros Hin%elem_of_take_rows.
  apply list_elem_of_fmap in Hin as (r & -> & Hr).
  apply elem_of_new_channels in Hr as (Hdf & T & HT & HC).
  cbn [add_display_columns rr_record col_opened channel_link col_total_views col_videos].
  split_and!; [done | | done | apply parse_format_thousands..].
  exists T. by rewrite HT.
Qed.

End PresentationFurther.

(** ** The run *)

Lemma search_loop_no_request pa max_results script st0 st ex :
  search_loop pa max_results script st0 = Some (st, ex, []) → st = st0 ∧ ex = None.
Proof.
  destruct script as [|r script']; cbn [search_loop];
    destruct (_ <? _); try done; [by intros [= <- <-] | | by intros [= <- <-]].
  destruct r as [p|e]; [|done].
  destruct (scan_items _ _ _) as [st1 [e|]]; [done|].
  destruct (_ || _); [done|].
  by destruct (search_loop _ _ script' _) as [[[? ?] ?]|].
Qed.

(** Channel ids come out of the finder only after a request, which needs a
    positive quota. *)
Lemma search_ids_need_request pa max_results script ids ms io :
  search_popular_videos pa max_results script = Some (ids, ms, io) →
  ids ≠ [] → io ≠ [] ∧ 0 < max_results
  ∧ ∃ reqs, io = IoSearch <$> reqs.
Proof.
  unfold search_popular_videos.
  destruct (search_loop _ _ _ _) as [[[st [e|]] reqs]|] eqn:Hloop; [| |done].
  - by intros [= <- <- <-].
  - intros [= <- <- <-] Hids.
    assert (reqs ≠ []) as Hreqs.
    { intros ->. apply search_loop_no_request in Hloop as [-> _].
      apply Hids. unfold finder_init. cbn. apply elements_empty. }
    split_and!; [by destruct reqs | | by eexists].
    destruct (Z.ltb_spec 0 max_results) as [|Hle]; [done|].
    rewrite search_loop_done in Hloop by (apply Z.ltb_ge; unfold finder_init; cbn; lia).
    by injection Hloop as <- <-.
Qed.

Lemma search_io_requests pa max_results script ids ms io :
  search_popular_videos pa max_results script = Some (ids, ms, io) →
  ∃ reqs, io = IoSearch <$> reqs
          ∧ Forall (λ req, sr_publishedAfter req = pa) reqs
          ∧ (∀ d, Searching d ∈ ms → d = NEW_CHANNEL_DAYS_THRESHOLD)
          ∧ (∀ d t, NoNewChannels d t ∉ ms).
Proof.
  unfold search_popular_videos.
  destruct (search_loop _ _ _ _) as [[[st ex] reqs]|] eqn:Hloop; [|done].
  apply search_loop_request_shape in Hloop as [Hshape _].
  assert (Hpa : Forall (λ req, sr_publishedAfter req = pa) reqs).
  { eapply Forall_impl; [exact Hshape|]. by intros req [? _]. }
  destruct ex as [e|]; intros [= <- <- <-]; exists reqs; (split_and!; [done | done | |]).
  - intros d Hd. apply elem_of_cons in Hd as [[= ->]|Hd]; [done|].
    unfold search_handler in Hd. destruct (is_http_error e); set_solver.
  - intros d t Hd. apply elem_of_cons in Hd as [[=]|Hd].
    unfold search_handler in Hd. destruct (is_http_error e); set_solver.
  - intros d Hd. set_solver.
  - intros d t Hd. set_solver.
Qed.

Section ProgramFurther.

Variable py_int : string → option Z.
Variable isoparse : string → option datetime.
Variable isoformat : datetime → string.
Variable strftime : datetime → string.
Variable argsort : list Z → list nat.

Lemma decode_items_warnings (items : list channel_item) :
  Forall (λ m, fetch_msg m = true) (decode_items py_int isoparse items).1.2.
Proof.
  induction items as [|item items IH]; cbn [decode_items]; [constructor|].
  destruct (decode_item _ _ item) as [r|w|e] eqn:Hdec.
  - by destruct (decode_items _ _ items) as [[rs ws] ex].
  - destruct (decode_items _ _ items) as [[rs ws] ex]. cbn in *.
    constructor; [|done]. unfold decode_item in Hdec. cbv zeta in Hdec.
    destruct (truthy _).
    + destruct (isoparse _); [|by injection Hdec as <-].
      unfold build_record in Hdec.
      destruct (if truthy _ then _ else _); [|done].
      destruct (int_default0 _ _); [|done]. by destruct (int_default0 _ _).
    + unfold build_record in Hdec.
      destruct (if truthy _ then _ else _); [|done].
      destruct (int_default0 _ _); [|done]. by destruct (int_default0 _ _).
  - constructor.
Qed.

Lemma fetch_batches_msgs channel_ids starts : ∀ script rs ms io,
  fetch_batches py_int isoparse channel_ids starts script = Some (rs, ms, io) →
  Forall (λ m, fetch_msg m = true) ms.
Proof.
  induction starts as [|i starts' IH]; intros script rs ms io Hrun.
  - injection Hrun as <- <- <-. constructor.
  - cbn [fetch_batches] in Hrun. destruct script as [|r script']; [done|].
    destruct (fetch_batch _ _ _ _ _) as [rs0 ms0] eqn:Hbatch.
    destruct (fetch_batches _ _ _ _ _) as [[[rs' ms'] evs]|] eqn:Hrec; [|done].
    injection Hrun as <- <- <-. apply Forall_app. split; [|by eapply IH].
    unfold fetch_batch in Hbatch. destruct r as [resp|e].
    + pose proof (decode_items_warnings (cr_items resp)) as Hws.
      destruct (decode_items _ _ _) as [[rs1 ws1] ex]. cbn in Hws.
      injection Hbatch as <- <-. constructor; [done|].
      apply Forall_app. split; [done|].
      destruct ex as [e|]; cbn; [|constructor].
      unfold batch_handler. destruct (is_http_error e); repeat constructor.
    + injection Hbatch as <- <-. constructor; [done|].
      unfold batch_handler. destruct (is_http_error e); repeat constructor.
Qed.

(** The shapes a survey can take. *)
Lemma survey_cases max_videos one_month_ago env out :
  survey py_int isoparse isoformat strftime argsort max_videos one_month_ago env = Some out →
  ∃ ids m1 io1,
    search_popular_videos (isoformat one_month_ago) max_videos (env_search env)
    = Some (ids, m1, io1)
    ∧ ((ids = [] ∧ out = say (m1 ++ [NoChannelsToCheck]) io1)
       ∨ (ids ≠ [] ∧ ∃ rs m2 io2,
            get_channel_details py_int isoparse ids (env_channels env) = Some (rs, m2, io2)
            ∧ ((rs = [] ∧ out = say (m1 ++ m2 ++ [DetailsFailed]) (io1 ++ io2))
               ∨ (rs ≠ [] ∧ new_channels one_month_ago rs = []
                  ∧ out = say ((m1 ++ m2 ++ [SurveyDone 0])
                               ++ [NoNewChannels NEW_CHANNEL_DAYS_THRESHOLD
                                     MAX_TOTAL_VIDEO_RESULTS])
                              (io1 ++ io2))
               ∨ (rs ≠ [] ∧ new_channels one_month_ago rs ≠ []
                  ∧ out = {| out_msgs :=
                               m1 ++ m2
                               ++ [SurveyDone (length (new_channels one_month_ago rs))];
                             out_io := io1 ++ io2;
                             out_table :=
                               Some (display_table strftime argsort
                                       (new_channels one_month_ago rs));
                             out_download :=
                               Some (display_table strftime argsort
                                       (new_channels one_month_ago rs)) |})))).
Proof.
  unfold survey.
  destruct (search_popular_videos _ _ _) as [[[ids m1] io1]|]; [|done].
  destruct ids as [|c ids].
  { intros [= <-]. eexists _, _, _. split; [done|]. by left. }
  destruct (get_channel_details _ _ _ _) as [[[rs m2] io2]|] eqn:Hfetch; [|done].
  intros Hout. eexists _, _, _. split; [done|]. right. split; [done|].
  exists rs, m2, io2. split; [done|].
  destruct rs as [|r rs].
  { injection Hout as <-. by left. }
  right. cbv zeta in Hout.
  destruct (new_channels one_month_ago (r :: rs)) as [|n ns] eqn:Hnew.
  - injection Hout as <-. left. done.
  - injection Hout as <-. right. done.
Qed.

(** The shapes a run can take. *)
Lemma main_cases key max_videos new_channel_days today env out :
  main py_int isoparse isoformat strftime argsort key max_videos new_channel_days
    today env = Some out →
  (key = ""%string ∧ out = say [EnterKeyInSidebar] [])
  ∨ (key ≠ ""%string ∧ ∃ e, env_build env = Raised e
       ∧ out = say (build_handler e) [IoBuild key])
  ∨ (key ≠ ""%string ∧ (∃ y, env_build env = Returned y) ∧ env_button env = false
       ∧ out = say [PressStart] [IoBuild key])
  ∨ (key ≠ ""%string ∧ (∃ y, env_build env = Returned y) ∧ env_button env = true
       ∧ ∃ out',
           survey py_int isoparse isoformat strftime argsort max_videos
             (today - timedelta_days new_channel_days) env = Some out'
           ∧ out = {| out_msgs := out_msgs out'; out_io := IoBuild key :: out_io out';
                      out_table := out_table out'; out_download := out_download out' |}).
Proof.
  intros Hmain. unfold main, get_youtube_service in Hmain.
  destruct key as [|c key]; cbn in Hmain.
  { injection Hmain as <-. by left. }
  right. destruct (env_build env) as [y|e] eqn:Hbuild; cbn in Hmain.
  - destruct (env_button env) eqn:Hbutton.
    + destruct (survey _ _ _ _ _ _ _ _) as [out'|]; [|done]. injection Hmain as <-.
      right. right. split_and!; [done | by eexists | done |]. by eexists.
    + injection Hmain as <-. right. left. split_and!; [done | by eexists | done | done].
  - left. split; [done|]. exists e. split; [done|].
    unfold build_handler. by destruct (is_http_error e); injection Hmain as <-.
Qed.

(** X13. A run calls the service in a fixed order: the client build
    first (whenever the key is not empty), then the searches, then the
    channel requests. A search is made only with a key, a built client and
    the start button pressed; a channel request only after a search, with a
    positive quota. *)
Theorem calls_are_gated_and_ordered (key : string) (max_videos new_channel_days : Z)
    (today : datetime) (env : environment) (out : run_output) :
  main py_int isoparse isoformat strftime argsort key max_videos new_channel_days
    today env = Some out →
  ∃ reqs batches,
    out_io out
    = (if truthy (Some key) then [IoBuild key] else [])
      ++ (IoSearch <$> reqs) ++ (IoChannels <$> batches)
    ∧ (reqs ≠ [] →
         key ≠ ""%string ∧ (∃ y, env_build env = Returned y) ∧ env_button env = true)
    ∧ (batches ≠ [] → reqs ≠ [] ∧ 0 < max_videos).
Proof.
  intros Hmain. apply main_cases in Hmain
    as [[-> ->] | [(Hkey & e & Hb & ->) | [(Hkey & Hb & Hbt & ->)
       | (Hkey & Hb & Hbt & out' & Hsurvey & ->)]]].
  - by exists [], [].
  - exists [], []. by destruct key.
  - exists [], []. by destruct key.
  - apply survey_cases in Hsurvey as (ids & m1 & io1 & Hsearch & Hcases).
    destruct (search_io_requests _ _ _ _ _ _ Hsearch) as (reqs & -> & _).
    assert (Hio : ∀ io2 batches, io2 = IoChannels <$> batches →
              (batches ≠ [] → ids ≠ []) →
              ∃ reqs0 batches0,
                IoBuild key :: (IoSearch <$> reqs) ++ io2
                = (if truthy (Some key) then [IoBuild key] else [])
                  ++ (IoSearch <$> reqs0) ++ (IoChannels <$> batches0)
                ∧ (reqs0 ≠ [] →
                     key ≠ ""%string ∧ (∃ y, env_build env = Returned y)
                     ∧ env_button env = true)
                ∧ (batches0 ≠ [] → reqs0 ≠ [] ∧ 0 < max_videos)).
    { intros io2 batches -> Hids. exists reqs, batches.
      split_and!; [by destruct key | done |].
      intros Hb2%Hids.
      destruct (search_ids_need_request _ _ _ _ _ _ Hsearch Hb2) as (Hne & Hpos & _).
      split; [|done]. intros ->. done. }
    destruct Hcases as [[-> ->] | (Hids & rs & m2 & io2 & Hfetch & Hout)].
    + cbn [out_io say]. rewrite <- (app_nil_r (IoSearch <$> reqs)).
      by apply (Hio [] []).
    + unfold get_channel_details in Hfetch.
      apply fetch_batches_spec in Hfetch as (_ & -> & _ & _).
      destruct Hout as [[_ ->] | [(_ & _ & ->) | (_ & _ & ->)]]; cbn [out_io say];
        apply (Hio _ (batch_at ids <$> batch_starts (length ids)));
        by rewrite <- ?list_fmap_compose.
Qed.

(** X14. When the client cannot be built, the run stops there: the build is
    its only call, the wrapper's error messages are its only messages, and
    no table is shown. *)
Theorem build_failure_halts_run (key : string) (max_videos new_channel_days : Z)
    (today : datetime) (env : environment) (e : exn) :
  key ≠ ""%string →
  env_build env = Raised e →
  main py_int isoparse isoformat strftime argsort key max_videos new_channel_days
    today env = Some (say (build_handler e) [IoBuild key])
  ∧ Forall (λ m, is_error m = true) (build_handler e).
Proof.
  intros Hkey Hbuild. split.
  - unfold main, get_youtube_service, build_handler. rewrite Hbuild.
    destruct key as [|c key]; [done|]. cbn. by destruct (is_http_error e).
  - unfold build_handler. destruct (is_http_error e); repeat constructor.
Qed.

(** X15. When the search raises, the run makes no channel request: it
    reports the search error, warns that there are no channels to look at,
    and shows no table. *)
Theorem failed_search_skips_fetch (key : string) (max_videos new_channel_days : Z)
    (today : datetime) (env : environment) (y : handle)
    (st : finder_state) (e : exn) (reqs : list search_request) :
  key ≠ ""%string →
  env_build env = Returned y →
  env_button env = true →
  search_loop (isoformat (today - timedelta_days new_channel_days)) max_videos
    (env_search env) finder_init = Some (st, Some e, reqs) →
  main py_int isoparse isoformat strftime argsort key max_videos new_channel_days
    today env
  = Some (say (Searching NEW_CHANNEL_DAYS_THRESHOLD :: search_handler e
               ++ [NoChannelsToCheck])
              (IoBuild key :: (IoSearch <$> reqs))).
Proof.
  intros Hkey Hbuild Hbutton Hloop.
  unfold main, get_youtube_service, survey, search_popular_videos.
  rewrite Hbuild, Hbutton, Hloop. destruct key as [|c key]; [done|]. done.
Qed.

(** X16. One cutoff serves the whole run: every search request carries the
    ISO rendering of [today] minus the chosen number of days, and every
    record behind a displayed table was created at or after that same
    instant. *)
Theorem one_cutoff_for_search_and_filter (key : string)
    (max_videos new_channel_days : Z) (today : datetime) (env : environment)
    (out : run_output) :
  main py_int isoparse isoformat strftime argsort key max_videos new_channel_days
    today env = Some out →
  let one_month_ago := today - timedelta_days new_channel_days in
  (∀ req, IoSearch req ∈ out_io out → sr_publishedAfter req = isoformat one_month_ago)
  ∧ (∀ shown, out_table out = Some shown →
       ∃ records,
         shown = display_table strftime argsort records
         ∧ records ≠ []
         ∧ Forall (λ r, ∃ T, published_at r = Some T ∧ one_month_ago ≤ T) records).
Proof.
  intros Hmain one_month_ago. apply main_cases in Hmain
    as [[-> ->] | [(Hkey & e & Hb & ->) | [(Hkey & Hb & Hbt & ->)
       | (Hkey & Hb & Hbt & out' & Hsurvey & ->)]]];
    try (split; [intros req Hreq; cbn in Hreq; set_solver | by intros]).
  fold one_month_ago in Hsurvey.
  apply survey_cases in Hsurvey as (ids & m1 & io1 & Hsearch & Hcases).
  destruct (search_io_requests _ _ _ _ _ _ Hsearch) as (reqs & -> & Hpa & _).
  assert (Hreqs : ∀ io2 batches req, io2 = IoChannels <$> batches →
            IoSearch req ∈ IoBuild key :: (IoSearch <$> reqs) ++ io2 →
            sr_publishedAfter req = isoformat one_month_ago).
  { intros io2 batches req -> Hreq.
    apply elem_of_cons in Hreq as [[=]|Hreq].
    apply elem_of_app in Hreq as [Hreq|Hreq].
    - apply list_elem_of_fmap in Hreq as (req' & [= <-] & Hin).
      by eapply Forall_forall in Hpa.
    - by apply list_elem_of_fmap in Hreq as (b & [=] & _). }
  destruct Hcases as [[-> ->] | (Hids & rs & m2 & io2 & Hfetch & Hout)].
  - split; [|by intros]. intros req Hreq. cbn [out_io say] in Hreq.
    rewrite <- (app_nil_r (IoSearch <$> reqs)) in Hreq. by eapply (Hreqs [] []).
  - unfold get_channel_details in Hfetch.
    pose proof (fetch_batches_spec _ _ _ _ _ _ _ _ Hfetch) as (_ & Hio & _ & _).
    rewrite (list_fmap_compose (batch_at ids) IoChannels) in Hio.
    destruct Hout as [[_ ->] | [(_ & _ & ->) | (_ & Hnew & ->)]]; cbn [out_io out_table say];
      (split; [intros req Hreq; by eapply Hreqs|]); try by intros.
    intros shown [= <-]. exists (new_channels one_month_ago rs).
    split_and!; [done | done |]. apply Forall_forall. intros r Hr.
    apply elem_of_new_channels in Hr as (_ & T & HT & HC). eauto.
Qed.

(** X17. Given an index sort that meets its contract: the download is
    offered exactly when a table is shown and holds the same rows; a table
    that is shown is never empty, and its number of rows is the number the
    success message announces. *)
Theorem table_matches_announcement (key : string) (max_videos new_channel_days : Z)
    (today : datetime) (env : environment) (out : run_output) :
  argsort_contract argsort →
  main py_int isoparse isoformat strftime argsort key max_videos new_channel_days
    today env = Some out →
  out_download out = out_table out
  ∧ ∀ shown, out_table out = Some shown →
      shown ≠ [] ∧ SurveyDone (length shown) ∈ out_msgs out.
Proof.
  intros Hc Hmain. apply main_cases in Hmain
    as [[-> ->] | [(Hkey & e & Hb & ->) | [(Hkey & Hb & Hbt & ->)
       | (Hkey & Hb & Hbt & out' & Hsurvey & ->)]]]; try done.
  apply survey_cases in Hsurvey as (ids & m1 & io1 & Hsearch & Hcases).
  destruct Hcases as [[-> ->] | (Hids & rs & m2 & io2 & Hfetch & Hout)]; [done|].
  destruct Hout as [[_ ->] | [(_ & _ & ->) | (_ & Hnew & ->)]]; try done.
  cbn [out_download out_table out_msgs]. split; [done|]. intros shown [= <-].
  rewrite display_table_length by done. split.
  - intros Hnil. apply (f_equal length) in Hnil.
    rewrite display_table_length in Hnil by done.
    by destruct (new_channels _ rs).
  - set_solver.
Qed.

(** X18. The messages quote the module's constants, not the chosen
    settings: whatever window and quota the run is given, a search
    announcement names 30 days, and a no-new-channel notice names 30 days
    and 100 videos. *)
Theorem messages_quote_constants (key : string) (max_videos new_channel_days : Z)
    (today : datetime) (env : environment) (out : run_output) :
  main py_int isoparse isoformat strftime argsort key max_videos new_channel_days
    today env = Some out →
  (∀ d, Searching d ∈ out_msgs out → d = 30)
  ∧ (∀ d t, NoNewChannels d t ∈ out_msgs out → d = 30 ∧ t = 100).
Proof.
  intros Hmain. apply main_cases in Hmain
    as [[-> ->] | [(Hkey & e & Hb & ->) | [(Hkey & Hb & Hbt & ->)
       | (Hkey & Hb & Hbt & out' & Hsurvey & ->)]]].
  - cbn. set_solver.
  - cbn. unfold build_handler. destruct (is_http_error e); set_solver.
  - cbn. set_solver.
  - apply survey_cases in Hsurvey as (ids & m1 & io1 & Hsearch & Hcases).
    destruct (search_io_requests _ _ _ _ _ _ Hsearch) as (reqs & _ & _ & Hs1 & Hn1).
    assert (Hfetch_msgs : ∀ rs m2 io2,
              get_channel_details py_int isoparse ids (env_channels env)
              = Some (rs, m2, io2) →
              (∀ d, Searching d ∉ m2) ∧ (∀ d t, NoNewChannels d t ∉ m2)).
    { intros rs m2 io2 Hfetch. unfold get_channel_details in Hfetch.
      apply fetch_batches_msgs in Hfetch.
      split; intros; intros Hin; eapply Forall_forall in Hfetch; eauto; done. }
    destruct Hcases as [[-> ->] | (Hids & rs & m2 & io2 & Hfetch & Hout)].
    + cbn [out_msgs say]. split.
      * intros d [Hd|Hd]%elem_of_app; [by apply Hs1 | set_solver].
      * intros d t [Hd|Hd]%elem_of_app; [by apply Hn1 in Hd | set_solver].
    + destruct (Hfetch_msgs _ _ _ Hfetch) as [Hs2 Hn2].
      destruct Hout as [[_ ->] | [(_ & _ & ->) | (_ & _ & ->)]]; cbn [out_msgs say]; split.
      all: try (intros d Hd; rewrite ?elem_of_app in Hd;
                destruct_or?; [by apply Hs1 | by apply Hs2 in Hd | set_solver..]).
      all: intros d t Hd; rewrite ?elem_of_app in Hd;
           destruct_or?; [by apply Hn1 in Hd | by apply Hn2 in Hd | set_solver..].
Qed.

(** X19. When the finder found channels but every channel request raises,
    the run still makes each request, then warns that the details could not
    be fetched and shows no table. *)
Theorem all_batches_failing_shows_no_table (key : string)
    (max_videos new_channel_days : Z) (today : datetime) (env : environment)
    (y : handle) (ids : list string) (m1 : list msg) (io1 : list io_event) :
  key ≠ ""%string →
  env_build env = Returned y →
  env_button env = true →
  search_popular_videos (isoformat (today - timedelta_days new_channel_days))
    max_videos (env_search env) = Some (ids, m1, io1) →
  ids ≠ [] →
  (length (batch_starts (length ids)) ≤ length (env_channels env))%nat →
  Forall (λ r, batch_failed r = true)
    (take (length (batch_starts (length ids))) (env_channels env)) →
  ∃ out,
    main py_int isoparse isoformat strftime argsort key max_videos new_channel_days
      today env = Some out
    ∧ out_table out = None ∧ out_download out = None
    ∧ DetailsFailed ∈ out_msgs out
    ∧ out_io out
      = IoBuild key :: io1
        ++ ((λ i, IoChannels (batch_at ids i)) <$> batch_starts (length ids)).
Proof.
  intros Hkey Hbuild Hbutton Hsearch Hids Hlen Hfail.
  destruct (get_channel_details_total py_int isoparse ids (env_channels env) Hlen)
    as [[[rs m2] io2] Hfetch].
  pose proof Hfetch as Hspec. unfold get_channel_details in Hspec.
  apply fetch_batches_spec in Hspec as (Hrs & Hio & _ & _).
  assert (rs = []) as ->.
  { rewrite Hrs. clear -Hfail.
    induction Hfail as [|r l Hr _ IH]; [done|]. cbn. rewrite IH.
    by destruct r. }
  unfold main, get_youtube_service, survey.
  rewrite Hbuild, Hbutton, Hsearch. destruct key as [|c key]; [done|].
  cbn -[get_channel_details].
  destruct ids as [|id ids]; [done|]. rewrite Hfetch.
  eexists. split; [reflexivity|]. cbn [out_table out_download out_msgs out_io say].
  split_and!; [done | done | | by rewrite Hio].
  rewrite !elem_of_app. right. right. by left.
Qed.

End ProgramFurther.

(** *** The further properties on sample inputs *)

Lemma batches_partition_ids_witness :
  ∃ batches, concat batches = sample_ids ∧ length batches = 2%nat.
Proof.
  destruct (get_channel_details parse_decimal isoparse_micros sample_ids
              sample_channels_script) as [[[rs ms] io]|] eqn:H; [|by vm_compute in H].
  destruct (batches_partition_ids _ _ _ _ _ _ _ H) as (batches & _ & Hcat & _ & Hlen).
  exists batches. split; [exact Hcat | exact Hlen].
Defined.

Lemma unparsable_date_skips_one_item_witness :
  (decode_items parse_decimal isoparse_micros
     ([item_hidden_no_count] ++ item_bad_date :: [item_without_date])).1.1
  = (decode_items parse_decimal isoparse_micros
       ([item_hidden_no_count] ++ [item_without_date])).1.1.
Proof.
  destruct (unparsable_date_skips_one_item parse_decimal isoparse_micros
              item_bad_date "yesterday") as [_ H];
    [reflexivity | done | reflexivity |].
  apply H.
Defined.

Lemma malformed_count_ends_batch_witness :
  ∃ r,
    fetch_batch parse_decimal isoparse_micros sample_ids 0
      (Returned {| cr_items := [item_hidden_no_count] ++ item_bad_count
                                 :: [item_without_date] |})
    = ([r], [FetchingBatch 1 50 51; ChannelsUnexpected (ValueError "many")]).
Proof.
  destruct (malformed_count_ends_batch parse_decimal isoparse_micros sample_ids 0
              [item_hidden_no_count] [item_without_date] item_bad_count
              (ValueError "many")) as [_ H]; [reflexivity | reflexivity |].
  eexists. rewrite H. reflexivity.
Defined.

Lemma fetched_records_come_from_items_witness :
  ∃ r item,
    decode_item parse_decimal isoparse_micros item = Appended r
    ∧ channel_id r = Some "UC50"%string.
Proof.
  destruct (get_channel_details parse_decimal isoparse_micros sample_ids
              sample_channels_script) as [[[rs ms] io]|] eqn:H; [|by vm_compute in H].
  assert (Hrs : ∃ r, r ∈ rs ∧ channel_id r = Some "UC50"%string).
  { vm_compute in H. injection H as <- _ _. eexists. split; [left | reflexivity]. }
  destruct Hrs as (r & Hr & Hid).
  destruct (fetched_records_come_from_items _ _ _ _ _ _ _ r H Hr)
    as (k & resp & item & _ & _ & _ & Hdec & _).
  exists r, item. split; [exact Hdec | exact Hid].
Defined.

Lemma display_shows_each_channel_once_witness :
  length (display_table show_micros argsort_stable
            [tie_first; tie_second; record_public]) = 3%nat.
Proof.
  destruct (display_shows_each_channel_once show_micros argsort_stable
              [tie_first; tie_second; record_public] argsort_stable_contract)
    as (_ & H & _).
  exact H.
Defined.

Lemma displayed_rows_are_complete_witness :
  ∃ T, published_at scenario_A = Some T ∧ days_ago 30 ≤ T
       ∧ col_opened (add_display_columns show_micros scenario_A) = Some (show_micros T).
Proof.
  destruct (displayed_rows_are_complete show_micros argsort_stable (days_ago 30)
              [scenario_A; scenario_B; scenario_C]
              (add_display_columns show_micros scenario_A)) as (_ & H & _).
  - vm_compute. apply list_elem_of_In. left. reflexivity.
  - exact H.
Defined.

Lemma calls_are_gated_and_ordered_witness :
  ∃ out reqs batches,
    main parse_decimal isoparse_micros show_micros show_micros argsort_stable
      "key" 100 30 sample_today sample_environment = Some out
    ∧ out_io out = [IoBuild "key"] ++ (IoSearch <$> reqs) ++ (IoChannels <$> batches).
Proof.
  destruct (main parse_decimal isoparse_micros show_micros show_micros argsort_stable
              "key" 100 30 sample_today sample_environment)
    as [out|] eqn:H; [|by vm_compute in H].
  destruct (calls_are_gated_and_ordered _ _ _ _ _ _ _ _ _ _ _ H)
    as (reqs & batches & Hio & _).
  exists out, reqs, batches. split; [reflexivity | exact Hio].
Defined.

Lemma build_failure_halts_run_witness :
  main parse_decimal isoparse_micros show_micros show_micros argsort_stable
    "key" 100 30 sample_today environment_build_fails
  = Some (say [KeyCheckFailed quota_error; KeyCheckHint] [IoBuild "key"]).
Proof.
  apply (build_failure_halts_run parse_decimal isoparse_micros show_micros show_micros
           argsort_stable "key" 100 30 sample_today environment_build_fails quota_error);
    done.
Defined.

Lemma failed_search_skips_fetch_witness :
  ∃ reqs,
    main parse_decimal isoparse_micros show_micros show_micros argsort_stable
      "key" 100 30 sample_today environment_search_fails
    = Some (say [Searching 30; SearchApiError quota_error; SearchQuotaHint;
                 NoChannelsToCheck]
                (IoBuild "key" :: (IoSearch <$> reqs))).
Proof.
  destruct (search_loop (show_micros (sample_today - timedelta_days 30)) 100
              (env_search environment_search_fails) finder_init)
    as [[[st ex] reqs]|] eqn:Hloop; [|by vm_compute in Hloop].
  assert (ex = Some quota_error) as ->.
  { vm_compute in Hloop. by injection Hloop as _ <- _. }
  exists reqs.
  by apply (failed_search_skips_fetch parse_decimal isoparse_micros show_micros
              show_micros argsort_stable "key" 100 30 sample_today
              environment_search_fails Youtube st quota_error reqs).
Defined.

Lemma one_cutoff_for_search_and_filter_witness :
  ∃ out,
    main parse_decimal isoparse_micros show_micros show_micros argsort_stable
      "key" 100 30 sample_today sample_environment = Some out
    ∧ ∀ req, IoSearch req ∈ out_io out
             → sr_publishedAfter req = show_micros (sample_today - timedelta_days 30).
Proof.
  destruct (main parse_decimal isoparse_micros show_micros show_micros argsort_stable
              "key" 100 30 sample_today sample_environment)
    as [out|] eqn:H; [|by vm_compute in H].
  destruct (one_cutoff_for_search_and_filter _ _ _ _ _ _ _ _ _ _ _ H) as [Hreq _].
  exists out. split; [reflexivity | exact Hreq].
Defined.

Lemma table_matches_announcement_witness :
  ∃ out shown,
    main parse_decimal isoparse_micros show_micros show_micros argsort_stable
      "key" 100 30 sample_today sample_environment = Some out
    ∧ out_table out = Some shown
    ∧ out_download out = Some shown
    ∧ SurveyDone (length shown) ∈ out_msgs out.
Proof.
  destruct (main parse_decimal isoparse_micros show_micros show_micros argsort_stable
              "key" 100 30 sample_today sample_environment)
    as [out|] eqn:H; [|by vm_compute in H].
  destruct (table_matches_announcement _ _ _ _ _ _ _ _ _ _ _
              argsort_stable_contract H) as [Hdl Hshown].
  destruct (out_table out) as [shown|] eqn:Htable.
  - exists out, shown. destruct (Hshown shown eq_refl) as [_ Hdone].
    split_and!; [reflexivity | exact Htable | exact Hdl | exact Hdone].
  - vm_compute in H. injection H as <-. discriminate Htable.
Defined.

Lemma messages_quote_constants_witness :
  ∃ out,
    main parse_decimal isoparse_micros show_micros show_micros argsort_stable
      "key" 500 7 sample_today sample_environment = Some out
    ∧ ∀ d, Searching d ∈ out_msgs out → d = 30.
Proof.
  destruct (main parse_decimal isoparse_micros show_micros show_micros argsort_stable
              "key" 500 7 sample_today sample_environment)
    as [out|] eqn:H; [|by vm_compute in H].
  destruct (messages_quote_constants _ _ _ _ _ _ _ _ _ _ _ H) as [Hs _].
  exists out. split; [reflexivity | exact Hs].
Defined.

Lemma all_batches_failing_shows_no_table_witness :
  ∃ out,
    main parse_decimal isoparse_micros show_micros show_micros argsort_stable
      "key" 100 30 sample_today environment_fetch_fails = Some out
    ∧ out_table out = None
    ∧ DetailsFailed ∈ out_msgs out.
Proof.
  destruct (search_popular_videos (show_micros (sample_today - timedelta_days 30)) 100
              (env_search environment_fetch_fails))
    as [[[ids m1] io1]|] eqn:Hsearch; [|by vm_compute in Hsearch].
  assert (Hids : length ids = 3%nat).
  { vm_compute in Hsearch. by injection Hsearch as <- _ _. }
  destruct (all_batches_failing_shows_no_table parse_decimal isoparse_micros
              show_micros show_micros argsort_stable "key" 100 30 sample_today
              environment_fetch_fails Youtube ids m1 io1)
    as (out & Hmain & Htable & _ & Hmsg & _);
    [done | done | done | exact Hsearch | by destruct ids
    | rewrite Hids; cbn; lia | rewrite Hids; by repeat constructor |].
  exists out. split_and!; [exact Hmain | exact Htable | exact Hmsg].
Defined.

Lemma search_msgs_no_ask pa max_results script ids ms io :
  search_popular_videos pa max_results script = Some (ids, ms, io) → AskApiKey ∉ ms.
Proof.
  unfold search_popular_videos.
  destruct (search_loop _ _ _ _) as [[[st [e|]] reqs]|]; [| |done];
    intros [= <- <- <-]; [|set_solver].
  unfold search_handler. destruct (is_http_error e); set_solver.
Qed.

(** X20. No run shows the wrapper's request for a key: with an empty key
    the main block does not call the wrapper and says, as an information
    and not as a warning, to enter the key in the sidebar. *)
Theorem wrapper_warning_never_shown (py_int : string → option Z)
    (isoparse : string → option datetime) (isoformat strftime : datetime → string)
    (argsort : list Z → list nat) (key : string) (max_videos new_channel_days : Z)
    (today : datetime) (env : environment) (out : run_output) :
  main py_int isoparse isoformat strftime argsort key max_videos new_channel_days
    today env = Some out →
  (AskApiKey ∉ out_msgs out)
  ∧ (key = ""%string →
       out_msgs out = [EnterKeyInSidebar] ∧ msg_level EnterKeyInSidebar = LInfo).
Proof.
  intros Hmain. apply main_cases in Hmain
    as [[-> ->] | [(Hkey & e & Hb & ->) | [(Hkey & Hb & Hbt & ->)
       | (Hkey & Hb & Hbt & out' & Hsurvey & ->)]]].
  - cbn. split; [set_solver | done].
  - cbn. split; [|done]. unfold build_handler. destruct (is_http_error e); set_solver.
  - cbn. split; [set_solver | done].
  - split; [|done]. cbn [out_msgs].
    apply survey_cases in Hsurvey as (ids & m1 & io1 & Hsearch & Hcases).
    pose proof (search_msgs_no_ask _ _ _ _ _ _ Hsearch) as H1.
    destruct Hcases as [[-> ->] | (Hids & rs & m2 & io2 & Hfetch & Hout)].
    + cbn [out_msgs say]. set_solver.
    + assert (H2 : AskApiKey ∉ m2).
      { unfold get_channel_details in Hfetch. apply fetch_batches_msgs in Hfetch.
        intros Hin. eapply Forall_forall in Hfetch; [|exact Hin]. done. }
      destruct Hout as [[_ ->] | [(_ & _ & ->) | (_ & _ & ->)]]; cbn [out_msgs say];
        set_solver.
Qed.

Lemma wrapper_warning_never_shown_witness :
  ∃ out,
    main parse_decimal isoparse_micros show_micros show_micros argsort_stable
      "" 100 30 sample_today sample_environment = Some out
    ∧ AskApiKey ∉ out_msgs out.
Proof.
  destruct (main parse_decimal isoparse_micros show_micros show_micros argsort_stable
              "" 100 30 sample_today sample_environment)
    as [out|] eqn:H; [|by vm_compute in H].
  destruct (wrapper_warning_never_shown _ _ _ _ _ _ _ _ _ _ _ H) as [Hno _].
  exists out. split; [reflexivity | exact Hno].
Defined.
